(** * cubeviz/controls/units.py: unit registries, unit classification and
    the wavelength / redshift controller.

    A shallow embedding of the Python module.  Python objects are modelled
    by the data they carry, exceptions by an explicit result type, module
    level singletons and collaborators by explicit state.  The astropy unit
    library is an interface (a type class): the module only calls it. *)

From Stdlib Require Import ZArith Floats List Lia.
From stdpp Require Import base option list sorting gmap sets strings.

Local Open Scope Z_scope.
Local Open Scope stdpp_scope.

(** ** Python values and exceptions *)

(** The scalars a YAML configuration entry holds: [null], a string or a
    number.  An integer literal is carried as the float of the same value
    (truthiness and [float(..)] agree on both). *)
Inductive yval : Type :=
| YNull
| YStr (s : string)
| YFloat (f : float).

(** [bool(x)]: [None], the empty string and zero are false. *)
Definition truthy (v : yval) : bool :=
  match v with
  | YNull => false
  | YStr s => negb (String.eqb s "")
  | YFloat f => negb (PrimFloat.eqb f 0%float)
  end.

Inductive exn : Type :=
| ValueError
| KeyError (key : string)
| TypeError
| AttributeError
| IndexError
| UnboundLocalError.

(** Outcome of a call that runs on a state [S]: the returned value or the
    raised exception, each with the state the call leaves behind. *)
Inductive result (S A : Type) : Type :=
| Ok (a : A) (s : S)
| Raise (e : exn) (s : S).
Arguments Ok {S A} a s.
Arguments Raise {S A} e s.

Definition returns {S A} (r : result S A) : Prop :=
  match r with Ok _ _ => True | Raise _ _ => False end.

(** A computation on the state [S]. *)
Definition M (S A : Type) : Type := S -> result S A.

Definition bind {S A B} (m : M S A) (k : A -> M S B) : M S B :=
  fun s => match m s with
           | Ok a s' => k a s'
           | Raise e s' => Raise e s'
           end.
Definition ret {S A} (a : A) : M S A := fun s => Ok a s.
Definition raise {S A} (e : exn) : M S A := fun s => Raise e s.
Definition lift {S A} (o : exn + A) : M S A :=
  fun s => match o with inl e => Raise e s | inr a => Ok a s end.

Notation "x <- m ;; k" := (bind m (fun x => k))
  (at level 100, m at next level, right associativity).

(** [needle in hay] on two Python strings. *)
Fixpoint str_contains (needle hay : string) : bool :=
  String.prefix needle hay ||
  match hay with
  | EmptyString => false
  | String _ rest => str_contains needle rest
  end.

(** [float(x)] on a string is Python's own parser. *)
Class PyRuntime := {
  float_of_str : string -> option float
}.

(** [float(x)] *)
Definition py_float `{PyRuntime} (v : yval) : exn + float :=
  match v with
  | YNull => inl TypeError
  | YFloat f => inr f
  | YStr s => match float_of_str s with
              | Some f => inr f
              | None => inl ValueError
              end
  end.

(** ** The astropy interface

    [Unit] is the type of astropy unit objects ([u.UnitBase]).  Parsing
    depends on the units enabled at run time, so [u_Unit] takes the list of
    units passed to [u.add_enabled_units] so far. *)
Class Astropy (Unit : Type) := {
  (* [u.Unit(x)]; [None] when astropy raises [ValueError] *)
  u_Unit : list Unit -> yval -> option Unit;
  (* [u.def_unit(name)] and [u.def_unit(name, base)] *)
  def_unit : string -> option Unit -> Unit;
  (* [unit.to_string()] and [unit.to_string("unscaled")] *)
  to_string : Unit -> string;
  to_string_unscaled : Unit -> string;
  (* [unit.scale], [unit.physical_type] *)
  scale : Unit -> float;
  physical_type : Unit -> string;
  (* [isinstance(unit, u.Unit)]: composite and irreducible units are
     [UnitBase] objects that are not instances of [u.Unit] *)
  is_Unit_instance : Unit -> bool;
  (* [a == b] on two units, and on a unit and a string *)
  unit_eq : Unit -> Unit -> bool;
  unit_eq_str : Unit -> string -> bool;
  (* [unit.decompose()], [a / b], [a ** n] *)
  decompose : Unit -> Unit;
  u_div : Unit -> Unit -> Unit;
  u_pow : Unit -> Z -> Unit;
  (* [unit.find_equivalent_units()] *)
  find_equivalent_units : Unit -> list Unit;
  (* the unit pairs of [u.spectral_density(3500 * u.AA)] *)
  spectral_density_3500AA : list (Unit * Unit);
  (* named units of the [u] namespace *)
  u_uJy : Unit; u_mJy : Unit; u_Jy : Unit;
  u_erg : Unit; u_cm : Unit; u_s : Unit; u_Hz : Unit; u_um : Unit;
  u_pix : Unit; u_steradian : Unit; u_degree : Unit
}.

(** ** Registry items *)

(** What a caller may hand to [add_unit]: a string, a unit object, or any
    other object (for instance [None]). *)
Inductive Item (Unit : Type) : Type :=
| ItemStr (s : string)
| ItemUnit (un : Unit)
| ItemOther.
Arguments ItemStr {Unit} s.
Arguments ItemUnit {Unit} un.
Arguments ItemOther {Unit}.

Section Items.
Context {Unit : Type} `{Astropy Unit}.

(** [a == b] on registry items. *)
Definition item_eq (a b : Item Unit) : bool :=
  match a, b with
  | ItemStr s, ItemStr t => String.eqb s t
  | ItemUnit x, ItemUnit y => unit_eq x y
  | ItemUnit x, ItemStr s | ItemStr s, ItemUnit x => unit_eq_str x s
  | _, _ => false
  end.

(** [item in l]: some element compares equal to [item].  (Python first
    tests identity; a string or a unit is also [==] to itself.) *)
Definition py_in (item : Item Unit) (l : list (Item Unit)) : bool :=
  existsb (fun x => item_eq x item) l.

Definition is_str_or_unit (item : Item Unit) : bool :=
  match item with ItemOther => false | _ => true end.

(** The body shared by [add_unit], [add_pixel_unit] and
    [add_solid_angle_unit]. *)
Definition append_if_new (item : Item Unit) (l : list (Item Unit))
  : list (Item Unit) :=
  if is_str_or_unit item then
    if negb (py_in item l) then l ++ [item] else l
  else l.

(** The loop of [get_unit_list] that turns items into strings. *)
Fixpoint unit_strings (item_list : list (Item Unit)) : list string :=
  match item_list with
  | [] => []
  | ItemStr s :: rest => s :: unit_strings rest
  | ItemUnit un :: rest => to_string un :: unit_strings rest
  | ItemOther :: rest => unit_strings rest
  end.

(** [list(set(l))]: the elements of the set in the set's own order. *)
Definition list_set (l : list string) : list string :=
  elements (list_to_set l : gset string).

(** [sorted(l)] on strings: ascending by code point, which on the
    UTF-8 bytes of a [string] is the byte-wise lexicographic order. *)
Definition sorted (l : list string) : list string :=
  merge_sort String.le l.

Definition sorted_unique_strings (item_list : list (Item Unit))
  : list string :=
  sorted (list_set (unit_strings item_list)).
End Items.

(** ** FluxUnitRegistry *)
Module FluxUnitRegistry.
Section Defs.
Context {Unit : Type} `{Astropy Unit}.

Record t : Type := mk { runtime_defined_units : list (Item Unit) }.

Definition init : t := mk [].

Definition _locally_defined_units : list Unit :=
  [ u_uJy; u_mJy; u_Jy;
    u_div (u_div (u_div u_erg (u_pow u_cm 2)) u_s) u_Hz;
    u_div (u_div (u_div u_erg (u_pow u_cm 2)) u_s) u_um;
    u_div (u_div u_erg (u_pow u_cm 2)) u_s ].

Definition is_flux (un : Unit) : bool :=
  str_contains "spectral flux density" (physical_type un).

Fixpoint flux_sides (eqs : list (Unit * Unit)) : list Unit :=
  match eqs with
  | [] => []
  | (unit1, unit2) :: rest =>
      (if is_flux unit1 then [unit1] else []) ++
      (if is_flux unit2 then [unit2] else []) ++ flux_sides rest
  end.

Definition _equivalencies_defined_units : list Unit :=
  flux_sides spectral_density_3500AA.

Definition get_unit_list (self : t) : list string :=
  let item_list :=
    map ItemUnit _equivalencies_defined_units ++
    map ItemUnit _locally_defined_units ++
    runtime_defined_units self in
  sorted_unique_strings item_list.

Definition add_unit (item : Item Unit) (self : t) : t :=
  mk (append_if_new item (runtime_defined_units self)).
End Defs.
Arguments t Unit : clear implicits.
End FluxUnitRegistry.

(** ** AreaUnitRegistry *)
Module AreaUnitRegistry.
Section Defs.
Context {Unit : Type} `{Astropy Unit}.

Record t : Type := mk {
  runtime_solid_angle_units : list (Item Unit);
  runtime_pixel_units : list (Item Unit)
}.

Definition init : t := mk [] [].

Definition _locally_defined_solid_angle_units : list Unit := [].

(** [u.add_enabled_units(spaxel)] acts on astropy's parser only; the
    listing reads the returned list. *)
Definition _locally_defined_pixel_units : list Unit :=
  [def_unit "spaxel" (Some u_pix)].

Definition _astropy_derived_solid_angle_units : list Unit :=
  map (fun un => u_pow un 2) (find_equivalent_units u_degree).

Definition _astropy_defined_solid_angle_units : list Unit := [u_steradian].

Definition _pixel_units : list Unit := [u_pix].

Definition get_unit_list (self : t) (pixel_only solid_angle_only : bool)
  : list string :=
  let pixels :=
    if negb solid_angle_only then
      runtime_pixel_units self ++
      map ItemUnit _locally_defined_pixel_units ++
      map ItemUnit _pixel_units
    else [] in
  let angles :=
    if negb pixel_only then
      runtime_solid_angle_units self ++
      map ItemUnit _locally_defined_solid_angle_units ++
      map ItemUnit _astropy_defined_solid_angle_units ++
      map ItemUnit _astropy_derived_solid_angle_units
    else [] in
  sorted_unique_strings (pixels ++ angles).

Definition add_pixel_unit (item : Item Unit) (self : t) : t :=
  mk (runtime_solid_angle_units self)
     (append_if_new item (runtime_pixel_units self)).

Definition add_solid_angle_unit (item : Item Unit) (self : t) : t :=
  mk (append_if_new item (runtime_solid_angle_units self))
     (runtime_pixel_units self).
End Defs.
Arguments t Unit : clear implicits.
End AreaUnitRegistry.

(** ** Sequences of registry calls *)
Section RegistryCalls.
Context {Unit : Type} `{Astropy Unit}.

Inductive RegistryCall : Type :=
| CallAddUnit (item : Item Unit)
| CallAddPixelUnit (item : Item Unit)
| CallAddSolidAngleUnit (item : Item Unit).

Definition Registries : Type :=
  (FluxUnitRegistry.t Unit * AreaUnitRegistry.t Unit)%type.

Definition run_call (rs : Registries) (c : RegistryCall) : Registries :=
  match c with
  | CallAddUnit i => (FluxUnitRegistry.add_unit i rs.1, rs.2)
  | CallAddPixelUnit i => (rs.1, AreaUnitRegistry.add_pixel_unit i rs.2)
  | CallAddSolidAngleUnit i =>
      (rs.1, AreaUnitRegistry.add_solid_angle_unit i rs.2)
  end.

Definition run_calls (calls : list RegistryCall) (rs : Registries)
  : Registries :=
  fold_left run_call calls rs.

(** A listing is in strictly ascending order: sorted, and no string
    occurs twice. *)
Definition strictly_ascending (l : list string) : Prop :=
  StronglySorted String.le l /\ NoDup l.
End RegistryCalls.

(** ** The CubeVizUnit hierarchy

    One constructor per class, carrying the arguments of its [__init__];
    the attributes the base class and the subclasses set are the functions
    below. *)
Inductive CubeVizUnit (Unit : Type) : Type :=
| NoneUnit
| UnknownUnit (unit : option Unit) (unit_string : yval)
| SpectralFluxDensity (unit : option Unit) (unit_string : yval)
    (numeric : option float) (spectral_flux_density : option Unit)
    (area : option Unit) (is_formatted : bool).
Arguments NoneUnit {Unit}.
Arguments UnknownUnit {Unit} unit unit_string.
Arguments SpectralFluxDensity {Unit} unit unit_string numeric
  spectral_flux_density area is_formatted.

Section CubeVizUnitAttributes.
Context {Unit : Type}.

(** The [unit] property ([self._unit]). *)
Definition cu_unit (c : CubeVizUnit Unit) : option Unit :=
  match c with
  | NoneUnit => None
  | UnknownUnit un _ => un
  | SpectralFluxDensity un _ _ _ _ _ => un
  end.

(** The [unit_string] property. *)
Definition cu_unit_string (c : CubeVizUnit Unit) : yval :=
  match c with
  | NoneUnit => YStr ""
  | UnknownUnit _ s => s
  | SpectralFluxDensity _ s _ _ _ _ => s
  end.

(** The [type] property ([self._type]). *)
Definition cu_type (c : CubeVizUnit Unit) : string :=
  match c with
  | NoneUnit => "NoneUnit"
  | UnknownUnit _ _ => "UnknownUnit"
  | SpectralFluxDensity _ _ _ _ _ is_formatted =>
      if is_formatted then "FormattedSpectralFluxDensity"
      else "SpectralFluxDensity"
  end.

Definition is_convertable (c : CubeVizUnit Unit) : bool :=
  match c with
  | SpectralFluxDensity _ _ _ _ _ _ => true
  | _ => false
  end.

(** The [spectral_flux_density] attribute, where the class has one. *)
Definition cu_spectral_flux_density (c : CubeVizUnit Unit) : option Unit :=
  match c with
  | SpectralFluxDensity _ _ _ sfd _ _ => sfd
  | _ => None
  end.
End CubeVizUnitAttributes.

(** ** FluxUnitController *)

(** What a caller passes as [unit]: [None], a string, a unit object, a
    [Quantity] (of which only its unit is read) or any other object. *)
Inductive UnitArg (Unit : Type) : Type :=
| ArgNone
| ArgStr (s : string)
| ArgUnit (un : Unit)
| ArgQuantity (un : Unit)
| ArgOther.
Arguments ArgNone {Unit}.
Arguments ArgStr {Unit} s.
Arguments ArgUnit {Unit} un.
Arguments ArgQuantity {Unit} un.
Arguments ArgOther {Unit}.

(** A YAML mapping with string keys: a Python [dict]. *)
Abbreviation ydict := (gmap string yval).

(** [d[key]] *)
Definition getitem (d : ydict) (key : string) : exn + yval :=
  match d !! key with
  | Some v => inr v
  | None => inl (KeyError key)
  end.

(** The configuration document: [new_units] in file order, and the alias
    table [registered_units]. *)
Record Config : Type := mkConfig {
  cfg_new_units : list (string * ydict);
  cfg_registered_units : gmap string ydict
}.

Section FluxUnitController.
Context {Unit : Type} `{Astropy Unit} `{PyRuntime}.

(** The state the controller's methods act on: astropy's enabled units,
    the two module-level registries, and the controller's own attributes.
    A data set is the list of its visible components with their units. *)
Record Env : Type := mkEnv {
  enabled : list Unit;
  FLUX_UNIT_REGISTRY : FluxUnitRegistry.t Unit;
  AREA_UNIT_REGISTRY : AreaUnitRegistry.t Unit;
  registered_units : gmap string ydict;
  data : option (list (string * UnitArg Unit));
  components : gmap string (CubeVizUnit Unit)
}.

Definition with_enabled (f : list Unit -> list Unit) (e : Env) : Env :=
  mkEnv (f (enabled e)) (FLUX_UNIT_REGISTRY e) (AREA_UNIT_REGISTRY e)
        (registered_units e) (data e) (components e).
Definition with_flux (f : FluxUnitRegistry.t Unit -> FluxUnitRegistry.t Unit)
  (e : Env) : Env :=
  mkEnv (enabled e) (f (FLUX_UNIT_REGISTRY e)) (AREA_UNIT_REGISTRY e)
        (registered_units e) (data e) (components e).
Definition with_area (f : AreaUnitRegistry.t Unit -> AreaUnitRegistry.t Unit)
  (e : Env) : Env :=
  mkEnv (enabled e) (FLUX_UNIT_REGISTRY e) (f (AREA_UNIT_REGISTRY e))
        (registered_units e) (data e) (components e).
Definition with_components
  (f : gmap string (CubeVizUnit Unit) -> gmap string (CubeVizUnit Unit))
  (e : Env) : Env :=
  mkEnv (enabled e) (FLUX_UNIT_REGISTRY e) (AREA_UNIT_REGISTRY e)
        (registered_units e) (data e) (f (components e)).

(** An optional unit as a registry item: [None] is no unit object. *)
Definition item_of (o : option Unit) : Item Unit :=
  match o with Some un => ItemUnit un | None => ItemOther end.

(** [SpectralFluxDensity(...)]: builds the object and registers its flux
    sub-unit in [FLUX_UNIT_REGISTRY]. *)
Definition SpectralFluxDensity_init (unit : option Unit) (unit_string : yval)
  (numeric : option float) (spectral_flux_density area : option Unit)
  (is_formatted : bool) : M Env (CubeVizUnit Unit) :=
  fun e =>
    Ok (SpectralFluxDensity unit unit_string numeric spectral_flux_density
          area is_formatted)
       (with_flux (FluxUnitRegistry.add_unit (item_of spectral_flux_density)) e).

(** [u.Unit(x)] as a call: [None] is not a valid unit. *)
Definition Unit_call (x : yval) : M Env Unit :=
  fun e =>
    match x with
    | YNull => Raise TypeError e
    | _ => match u_Unit (enabled e) x with
           | Some un => Ok un e
           | None => Raise ValueError e
           end
    end.

(** [u.add_enabled_units(new_unit)] is recorded by appending to [enabled];
    the units the constructor passes are new names or units enabled
    before, for which astropy reports no name clash. *)
Definition register_new_unit (new_unit : Unit) : M Env unit :=
  fun e =>
    let e := with_enabled (fun l => l ++ [new_unit]) e in
    let e :=
      if str_contains "spectral flux density" (physical_type new_unit)
      then with_flux (FluxUnitRegistry.add_unit (ItemUnit new_unit)) e
      else e in
    let e :=
      if unit_eq (decompose new_unit) (decompose u_pix)
      then with_area (AreaUnitRegistry.add_pixel_unit (ItemUnit new_unit)) e
      else e in
    let e :=
      if str_contains "solid angle" (physical_type new_unit)
      then with_area
             (AreaUnitRegistry.add_solid_angle_unit (ItemUnit new_unit)) e
      else e in
    Ok tt e.

(** [string_to_unit]: a falsy argument and a string astropy rejects both
    give [None] (the warning printed in the second case is not modelled). *)
Definition string_to_unit (unit_string : yval) (e : Env) : option Unit :=
  if truthy unit_string then u_Unit (enabled e) unit_string else None.

Definition unit_to_string (unit : UnitArg Unit) : exn + string :=
  match unit with
  | ArgNone => inr ""
  | ArgStr s => inr s
  | ArgUnit un =>
      if is_Unit_instance un then inr (to_string un) else inl ValueError
  | ArgQuantity un => inr (to_string un)
  | ArgOther => inl ValueError
  end.

(** The branch of [add_component_unit] for a string found in
    [registered_units]. *)
Definition classify_registered (unit_string : string) (registered_unit : ydict)
  : M Env (CubeVizUnit Unit) :=
  let unit_string :=
    match registered_unit !! "astropy_unit_string" with
    | Some v => v
    | None => YStr unit_string
    end in
  fun e =>
    let astropy_unit := string_to_unit unit_string e in
    (numeric_field <- lift (getitem registered_unit "numeric") ;;
     numeric <-
       (if truthy numeric_field then lift (py_float numeric_field)
        else match astropy_unit with
             | Some un => ret (scale un)
             | None => raise AttributeError
             end) ;;
     sfd_field <- lift (getitem registered_unit "spectral_flux_density") ;;
     area_field <- lift (getitem registered_unit "area") ;;
     fun e' =>
       SpectralFluxDensity_init astropy_unit unit_string (Some numeric)
         (string_to_unit sfd_field e') (string_to_unit area_field e') true e')
    e.

(** The branch of [add_component_unit] for any other non-empty string. *)
Definition classify_plain (unit_string : string) : M Env (CubeVizUnit Unit) :=
  fun e =>
    let astropy_unit := string_to_unit (YStr unit_string) e in
    match astropy_unit with
    | Some un =>
        if str_contains "spectral flux density" (physical_type un) then
          SpectralFluxDensity_init astropy_unit (YStr unit_string)
            (Some (scale un))
            (string_to_unit (YStr (to_string_unscaled un)) e) None false e
        else Ok (UnknownUnit astropy_unit (YStr unit_string)) e
    | None => Ok (UnknownUnit astropy_unit (YStr unit_string)) e
    end.

(** [add_component_unit(component_id, unit)]; [component_id] is the
    string [str(component_id)]. *)
Definition add_component_unit (component_id : string) (unit : UnitArg Unit)
  : M Env (CubeVizUnit Unit) :=
  unit_string <- lift (unit_to_string unit) ;;
  cubeviz_unit <-
    (fun e =>
       if negb (truthy (YStr unit_string)) then Ok NoneUnit e
       else match registered_units e !! unit_string with
            | Some registered_unit =>
                classify_registered unit_string registered_unit e
            | None => classify_plain unit_string e
            end) ;;
  fun e => Ok cubeviz_unit (with_components <[component_id := cubeviz_unit]> e).

Definition remove_component_unit (component_id : string) : M Env unit :=
  fun e => Ok tt (with_components (delete component_id) e).

Definition get_component_unit (component_id : string) (e : Env)
  : option Unit :=
  match components e !! component_id with
  | Some c => cu_unit c
  | None => None
  end.

Fixpoint add_all (comps : list (string * UnitArg Unit)) : M Env unit :=
  match comps with
  | [] => ret tt
  | (comp, units) :: rest =>
      _ <- add_component_unit comp units ;; add_all rest
  end.

Definition set_data (d : list (string * UnitArg Unit)) : M Env unit :=
  fun e =>
    add_all d
      (mkEnv (enabled e) (FLUX_UNIT_REGISTRY e) (AREA_UNIT_REGISTRY e)
             (registered_units e) (Some d) ∅).

(** One pass of the loop of [__init__] over [cfg["new_units"]].  The local
    variable [new_astropy_unit] is bound only by the [except] branch and
    lives across iterations: [None] is the unbound variable. *)
Definition init_step (new_unit : ydict) (new_astropy_unit : option Unit)
  : M Env (option Unit) :=
  name <- lift (getitem new_unit "name") ;;
  bound <-
    (fun e =>
       match name with
       | YNull => Raise TypeError e
       | _ =>
           match u_Unit (enabled e) name with
           | Some _ => Ok new_astropy_unit e
           | None =>
               match name with
               | YStr name_str =>
                   match new_unit !! "base" with
                   | Some base =>
                       (b <- Unit_call base ;;
                        ret (Some (def_unit name_str (Some b)))) e
                   | None => Ok (Some (def_unit name_str None)) e
                   end
               | _ => Raise TypeError e
               end
           end
       end) ;;
  match bound with
  | Some un => _ <- register_new_unit un ;; ret bound
  | None => raise UnboundLocalError
  end.

Fixpoint init_loop (new_units : list (string * ydict))
  (new_astropy_unit : option Unit) : M Env unit :=
  match new_units with
  | [] => ret tt
  | (_, new_unit) :: rest =>
      bound <- init_step new_unit new_astropy_unit ;; init_loop rest bound
  end.

(** [FluxUnitController.__init__] with the configuration already loaded;
    it runs on the astropy state and the registries it finds. *)
Definition FluxUnitController_init (cfg : Config) (enabled0 : list Unit)
  (flux0 : FluxUnitRegistry.t Unit) (area0 : AreaUnitRegistry.t Unit)
  : result Env unit :=
  (_ <- init_loop (cfg_new_units cfg) None ;;
   fun e =>
     Ok tt (mkEnv (enabled e) (FLUX_UNIT_REGISTRY e) (AREA_UNIT_REGISTRY e)
              (cfg_registered_units cfg) None ∅))
    (mkEnv enabled0 flux0 area0 ∅ None ∅).

(** An alias record that carries what [add_component_unit] reads from it:
    the keys [numeric], [spectral_flux_density] and [area], and a scale,
    either a [numeric] that [float] accepts or, when [numeric] is falsy,
    a unit string that astropy parses. *)
Definition alias_unit_string (s : string) (r : ydict) : yval :=
  match r !! "astropy_unit_string" with
  | Some v => v
  | None => YStr s
  end.

Definition alias_ok (s : string) (r : ydict) (e : Env) : bool :=
  match r !! "numeric", r !! "spectral_flux_density", r !! "area" with
  | Some nf, Some _, Some _ =>
      if truthy nf then
        match py_float nf with inr _ => true | inl _ => false end
      else
        match string_to_unit (alias_unit_string s r) e with
        | Some _ => true
        | None => false
        end
  | _, _, _ => false
  end.
End FluxUnitController.

(** ** UnitController: wavelengths and redshift *)

Definition OBS_WAVELENGTH_TEXT : string := "Obs Wavelength".
Definition REST_WAVELENGTH_TEXT : string := "Rest Wavelength".

(** The numbers of the wavelength arrays and of the redshift, with the
    operations the controller applies to them. *)
Class PyNum (num : Type) := {
  num_add : num -> num -> num;
  num_mul : num -> num -> num;
  num_div : num -> num -> num;
  num_eqb : num -> num -> bool;
  num_ltb : num -> num -> bool;
  num_zero : num;
  num_one : num
}.

(** Python floats and float64 arrays: IEEE 754 binary64. *)
#[export] Instance float_PyNum : PyNum float := {|
  num_add := PrimFloat.add;
  num_mul := PrimFloat.mul;
  num_div := PrimFloat.div;
  num_eqb := PrimFloat.eqb;
  num_ltb := PrimFloat.ltb;
  num_zero := 0%float;
  num_one := 1%float
|}.

(** The units of the wavelength combo box, [self._units]. *)
Inductive LUnit : Type := Lm | Lcm | Lmm | Lum | Lnm | LAA.

(** The scale of a length unit in metres, as astropy's unit system holds
    it. *)
Class LengthScale (num : Type) := si_scale : LUnit -> num.

(** The scales astropy holds in binary64: the SI prefixes, and the
    Angstrom defined as [0.1 * nm]. *)
#[export] Instance float_LengthScale : LengthScale float := fun un =>
  match un with
  | Lm => 1
  | Lcm => 0x1.47ae147ae147bp-7
  | Lmm => 0x1.0624dd2f1a9fcp-10
  | Lum => 0x1.0c6f7a0b5ed8dp-20
  | Lnm => 0x1.12e0be826d695p-30
  | LAA => PrimFloat.mul 0x1.999999999999ap-4 0x1.12e0be826d695p-30
  end%float.

(** [unit.long_names[0]] of a length unit: the name astropy lists first
    among the unit's long names. *)
Class LengthNames := long_name : LUnit -> string.

(** The names a current astropy release reports for the six units. *)
#[export] Instance astropy_LengthNames : LengthNames := fun un =>
  match un with
  | Lm => "meter"
  | Lcm => "centimeter"
  | Lmm => "millimeter"
  | Lum => "micrometer"
  | Lnm => "nanometer"
  | LAA => "AA"
  end.

(** [s.title()] on ASCII text: a letter that follows a letter is made
    lower case, any other letter upper case; other bytes are kept and
    count as no letter. *)
Definition is_lower (c : Ascii.ascii) : bool :=
  (97 <=? Ascii.nat_of_ascii c)%nat && (Ascii.nat_of_ascii c <=? 122)%nat.
Definition is_upper (c : Ascii.ascii) : bool :=
  (65 <=? Ascii.nat_of_ascii c)%nat && (Ascii.nat_of_ascii c <=? 90)%nat.
Definition to_upper (c : Ascii.ascii) : Ascii.ascii :=
  if is_lower c then Ascii.ascii_of_nat (Ascii.nat_of_ascii c - 32) else c.
Definition to_lower (c : Ascii.ascii) : Ascii.ascii :=
  if is_upper c then Ascii.ascii_of_nat (Ascii.nat_of_ascii c + 32) else c.

Fixpoint title_from (previous_is_cased : bool) (s : string) : string :=
  match s with
  | EmptyString => EmptyString
  | String c rest =>
      if is_lower c || is_upper c then
        String (if previous_is_cased then to_lower c else to_upper c)
               (title_from true rest)
      else String c (title_from false rest)
  end.

Definition py_title (s : string) : string := title_from false s.

Section UnitController.
Context {num : Type} `{PyNum num} `{LengthScale num} `{LengthNames}.

(** A value handed around as "the wavelengths": [None], [False] or an
    array. *)
Inductive wval : Type :=
| WNone
| WFalse
| WArray (a : list num).

(** Calls on the collaborators, in the order they are made. *)
Inductive Event : Type :=
| SliceSetLabel (label : string)
| LayoutSetWavelengths (w : wval) (un : LUnit)
| SliceSetWavelengths (w : wval) (un : LUnit)
| EmitChangeRedshift (redshift : option num).

Record UnitController : Type := mkUC {
  _original_wavelengths : option (list num);
  _new_wavelengths : wval;
  _original_units : LUnit;
  _new_units : LUnit;
  _redshift_z : option num;
  _wavelength_textbox_label : string;
  (* [self._wavelengths], an attribute the redshift setter creates *)
  _wavelengths : option (list num);
  (* the calls received so far by the layout, its slice controller and
     the dispatch channel *)
  trace : list Event
}.

Definition _units : list LUnit := [Lm; Lcm; Lmm; Lum; Lnm; LAA].

(** [list(u.long_names[0].title() for u in self._units)] *)
Definition _units_titles : list string :=
  map (fun un => py_title (long_name un)) _units.

(** [UnitController.__init__] for a layout holding [wavelengths] and a
    label widget showing [label]. *)
Definition UnitController_init (wavelengths : option (list num))
  (label : string) : UnitController :=
  mkUC wavelengths (WArray []) Lm Lm (Some num_zero) label None [].

Definition emit (ev : Event) (self : UnitController) : UnitController :=
  mkUC (_original_wavelengths self) (_new_wavelengths self)
       (_original_units self) (_new_units self) (_redshift_z self)
       (_wavelength_textbox_label self) (_wavelengths self)
       (trace self ++ [ev]).

Definition set_redshift_field (z : option num) (self : UnitController)
  : UnitController :=
  mkUC (_original_wavelengths self) (_new_wavelengths self)
       (_original_units self) (_new_units self) z
       (_wavelength_textbox_label self) (_wavelengths self) (trace self).

Definition set_label (label : string) (self : UnitController)
  : UnitController :=
  mkUC (_original_wavelengths self) (_new_wavelengths self)
       (_original_units self) (_new_units self) (_redshift_z self)
       label (_wavelengths self) (trace self).

Definition set_wavelengths_field (w : list num) (self : UnitController)
  : UnitController :=
  mkUC (_original_wavelengths self) (_new_wavelengths self)
       (_original_units self) (_new_units self) (_redshift_z self)
       (_wavelength_textbox_label self) (Some w) (trace self).

Definition set_new (un : LUnit) (w : wval) (self : UnitController)
  : UnitController :=
  mkUC (_original_wavelengths self) w (_original_units self) un
       (_redshift_z self) (_wavelength_textbox_label self)
       (_wavelengths self) (trace self).

(** [a == b] on two redshift values, either of which may be [None]. *)
Definition py_eq (a b : option num) : bool :=
  match a, b with
  | None, None => true
  | Some x, Some y => num_eqb x y
  | _, _ => false
  end.

Definition wval_of (o : option (list num)) : wval :=
  match o with Some a => WArray a | None => WNone end.

(** The two arms of the setter's [if new_z is not None and new_z > 0]. *)
Definition rest_arm (new_z : num) : M UnitController unit :=
  fun self =>
    let self := set_label REST_WAVELENGTH_TEXT self in
    let self := emit (SliceSetLabel REST_WAVELENGTH_TEXT) self in
    match _original_wavelengths self with
    | Some orig =>
        Ok tt (emit (LayoutSetWavelengths
                       (WArray (map (num_mul (num_add num_one new_z)) orig))
                       (_new_units self)) self)
    | None => Raise TypeError self
    end.

Definition obs_arm : M UnitController unit :=
  fun self =>
    let self := set_label OBS_WAVELENGTH_TEXT self in
    let self := emit (SliceSetLabel OBS_WAVELENGTH_TEXT) self in
    Ok tt (emit (LayoutSetWavelengths (wval_of (_original_wavelengths self))
                   (_new_units self)) self).

(** The tail of the setter: recompute, store, notify, publish.  The
    division raises [TypeError] on a [None] operand. *)
Definition recompute : M UnitController unit :=
  fun self =>
    match _original_wavelengths self, _redshift_z self with
    | Some orig, Some z =>
        let w := map (fun x => num_div x (num_add num_one z)) orig in
        let self := set_wavelengths_field w self in
        let self :=
          emit (SliceSetWavelengths (WArray w) (_new_units self)) self in
        Ok tt (emit (EmitChangeRedshift (_redshift_z self)) self)
    | _, _ => Raise TypeError self
    end.

(** The [redshift_z] setter.  Publishing on the dispatch channel is
    recorded in [trace]; what the channel delivers back arrives as a
    separate call of [change_redshift]. *)
Definition set_redshift_z (new_z : option num) : M UnitController unit :=
  fun self =>
    if py_eq (_redshift_z self) new_z then Ok tt self
    else
      (_ <- (match new_z with
             | Some z => if num_ltb num_zero z then rest_arm z else obs_arm
             | None => obs_arm
             end) ;;
       recompute) (set_redshift_field new_z self).

(** [@specviz_dispatch.register_listener(...)]: the dispatch calls the
    method it wraps, logs an exception the method raises and returns. *)
Definition register_listener (method : M UnitController unit)
  : M UnitController unit :=
  fun self =>
    match method self with
    | Ok _ self' => Ok tt self'
    | Raise _ self' => Ok tt self'
    end.

(** The listener registered for ["change_redshift"]. *)
Definition change_redshift (redshift : option num) : M UnitController unit :=
  register_listener
    (fun self =>
       if py_eq (_redshift_z self) redshift then Ok tt self
       else set_redshift_z redshift self).

(** [(old_wavelengths * old_units).to(new_units) / new_units]: the values
    rescaled by the ratio of the two units. *)
Definition to_unit (old_units new_units : LUnit) (w : num) : num :=
  num_mul w (num_div (si_scale old_units) (si_scale new_units)).

Definition convert_wavelengths (old_wavelengths : option (list num))
  (old_units new_units : LUnit) : wval :=
  match old_wavelengths with
  | Some ws => WArray (map (to_unit old_units new_units) ws)
  | None => WFalse
  end.

(** [l.index(x)] *)
Fixpoint index_of (x : string) (l : list string) : option nat :=
  match l with
  | [] => None
  | y :: rest =>
      if String.eqb y x then Some O else option_map S (index_of x rest)
  end.

Definition on_combobox_change (new_unit_name : string)
  : M UnitController unit :=
  fun self =>
    match index_of new_unit_name _units_titles with
    | None => Raise ValueError self
    | Some i =>
        match _units !! i with
        | None => Raise IndexError self
        | Some un =>
            let w := convert_wavelengths (_original_wavelengths self)
                       (_original_units self) un in
            let self := set_new un w self in
            match _new_wavelengths self with
            | WNone => Ok tt self
            | w' => Ok tt (emit (LayoutSetWavelengths w' (_new_units self)) self)
            end
        end
    end.

Definition enable (wavelength : option (list num)) (self : UnitController)
  : UnitController :=
  mkUC wavelength (_new_wavelengths self) (_original_units self)
       (_new_units self) (_redshift_z self) (_wavelength_textbox_label self)
       (_wavelengths self) (trace self).

Definition get_new_units (self : UnitController) : LUnit := _new_units self.
End UnitController.

(** ** A small unit system and configuration

    A concrete instance of the astropy interface, on which the functions
    above evaluate: a unit is its canonical string.  It knows the units
    the module names, three flux densities among them, and whatever has
    been enabled at run time. *)
Module Sample.

Definition flux_names : list string :=
  ["Jy"; "mJy"; "uJy"; "erg / (Angstrom cm2 s)"].

Definition builtin_names : list string :=
  flux_names ++ ["erg"; "cm"; "s"; "Hz"; "um"; "pix"; "sr"; "deg"].

Definition parse (enabled : list string) (x : yval) : option string :=
  match x with
  | YNull => None
  | YStr s =>
      if bool_decide (s ∈ builtin_names ++ enabled) then Some s else None
  | YFloat _ => Some ""
  end.

Definition phys (un : string) : string :=
  if bool_decide (un ∈ flux_names) then "spectral flux density"
  else if bool_decide (un ∈ ["sr"; "deg2"]) then "solid angle"
  else "unknown".

#[global] Instance astropy : Astropy string := {|
  u_Unit := parse;
  def_unit := fun name _ => name;
  to_string := fun un => un;
  to_string_unscaled := fun un => un;
  scale := fun _ => 1%float;
  physical_type := phys;
  is_Unit_instance := fun _ => true;
  unit_eq := String.eqb;
  unit_eq_str := String.eqb;
  decompose := fun un => if String.eqb un "spaxel" then "pix" else un;
  u_div := fun a b => a +:+ " / " +:+ b;
  u_pow := fun a n => if Z.eqb n 2 then a +:+ "2" else a;
  find_equivalent_units := fun un => [un];
  spectral_density_3500AA := [("erg / (Angstrom cm2 s)", "Jy")];
  u_uJy := "uJy"; u_mJy := "mJy"; u_Jy := "Jy";
  u_erg := "erg"; u_cm := "cm"; u_s := "s"; u_Hz := "Hz"; u_um := "um";
  u_pix := "pix"; u_steradian := "sr"; u_degree := "deg"
|}.

#[global] Instance runtime : PyRuntime := {|
  float_of_str := fun s =>
    if String.eqb s "1E-17" then Some 0x1.70ef54646d497p-57%float
    else if String.eqb s "1" then Some 1%float
    else None
|}.

(** An alias record as the shipped configuration writes them. *)
Definition full_record : ydict :=
  {[ "astropy_unit_string" := YStr "erg / (Angstrom cm2 s)";
     "numeric" := YStr "1E-17";
     "spectral_flux_density" := YStr "erg / (Angstrom cm2 s)";
     "area" := YStr "pix" ]}.

(** A record without the [area] key. *)
Definition no_area_record : ydict :=
  {[ "numeric" := YFloat 1%float;
     "spectral_flux_density" := YStr "Jy" ]}.

(** A record whose flux field names no unit astropy knows. *)
Definition odd_flux_record : ydict :=
  {[ "numeric" := YFloat 1%float;
     "spectral_flux_density" := YStr "counts";
     "area" := YStr "pix" ]}.

Definition aliases : gmap string ydict :=
  {[ "1E-17 erg/s/cm^2/Angstrom/spaxel" := full_record;
     "flux per second" := no_area_record;
     "counts per pixel" := odd_flux_record ]}.

(** The state right after a construction that defined no new unit. *)
Definition env0 : Env (Unit := string) :=
  mkEnv [] FluxUnitRegistry.init AreaUnitRegistry.init aliases None ∅.

(** Two configurations for the constructor: one whose only custom unit
    is already defined, one that defines [spaxel] and then names [Jy]. *)
Definition cfg_existing : Config :=
  mkConfig [("jansky", {[ "name" := YStr "Jy" ]})] aliases.

Definition cfg_new_then_existing : Config :=
  mkConfig [("spaxel", {[ "name" := YStr "spaxel"; "base" := YStr "pix" ]});
            ("jansky", {[ "name" := YStr "Jy" ]})] aliases.

End Sample.

(** ** Unit rows of the conversion dialog

    [populate_unit_layout] adds widgets to a Qt layout.  The layout is the
    list of what was added, in order; a widget is what the method passes
    to its constructor and setters. *)
Inductive LineArg : Type :=
| LineStr (s : string)
| LineNum (f : float).

Inductive Widget : Type :=
| QLabel (text : string)
| QLineEdit (arg : LineArg) (fixed_width : Z)
| QComboBox (items : list string) (current : option nat)
| Stretch (factor : Z).

Section PopulateUnitLayout.
Context {Unit : Type} `{Astropy Unit}.
(** [str(x)] on a float is Python's own printer. *)
Variable str_of_float : float -> string.

(** [str(v)], as [format] applies it. *)
Definition py_str (v : yval) : string :=
  match v with
  | YStr s => s
  | YNull => "None"
  | YFloat f => str_of_float f
  end.

(** [CubeVizUnit.populate_unit_layout], which [UnknownUnit] inherits. *)
Definition default_populate (unit_string : yval) : M (list Widget) unit :=
  fun unit_layout =>
    let default_message :=
      if truthy unit_string
      then "CubeViz can not convert this unit: " +:+ py_str unit_string +:+ "."
      else "Unit not found." in
    Ok tt (unit_layout ++ [QLabel default_message]).

(** [s in l] on a list of strings. *)
Definition str_in (s : string) (l : list string) : bool :=
  existsb (String.eqb s) l.

(** [SpectralFluxDensity.populate_unit_layout], reading the two
    registries. *)
Definition flux_populate (self_unit : option Unit) (numeric : option float)
  (spectral_flux_density area : option Unit)
  (flux : FluxUnitRegistry.t Unit) (area_reg : AreaUnitRegistry.t Unit)
  : M (list Widget) unit :=
  fun unit_layout =>
    let numeric_string :=
      match numeric, self_unit with
      | Some n, _ => LineStr (str_of_float n)
      | None, Some un => LineNum (scale un)
      | None, None => LineStr "1.0"
      end in
    let unit_layout := unit_layout ++ [QLineEdit numeric_string 50] in
    let unit_layout := unit_layout ++ [QLabel " X "] in
    match spectral_flux_density with
    | None => Raise AttributeError unit_layout
    | Some sfd =>
        let flux_unit_str := to_string sfd in
        let flux_options := FluxUnitRegistry.get_unit_list flux in
        let flux_options :=
          if negb (str_in flux_unit_str flux_options)
          then flux_options ++ [flux_unit_str] else flux_options in
        match index_of flux_unit_str flux_options with
        | None => Raise ValueError unit_layout
        | Some index =>
            let unit_layout :=
              unit_layout ++ [QComboBox flux_options (Some index)] in
            let unit_layout :=
              match area with
              | Some _ =>
                  unit_layout ++
                  [QLabel " / ";
                   QComboBox
                     (AreaUnitRegistry.get_unit_list area_reg false false)
                     None]
              | None => unit_layout
              end in
            Ok tt (unit_layout ++ [Stretch 1])
        end
    end.

(** [cubeviz_unit.populate_unit_layout(unit_layout)], by class. *)
Definition populate_unit_layout (c : CubeVizUnit Unit)
  (flux : FluxUnitRegistry.t Unit) (area_reg : AreaUnitRegistry.t Unit)
  : M (list Widget) unit :=
  match c with
  | NoneUnit => fun unit_layout => Ok tt (unit_layout ++ [QLabel "No Units."])
  | UnknownUnit _ unit_string => default_populate unit_string
  | SpectralFluxDensity self_unit _ numeric sfd area _ =>
      flux_populate self_unit numeric sfd area flux area_reg
  end.
End PopulateUnitLayout.

(** * Properties *)

(** ** Registry listings *)
Section RegistryProperties.
Context {Unit : Type} `{Astropy Unit}.

Lemma sorted_unique_strings_ascending (items : list (Item Unit)) :
  strictly_ascending (sorted_unique_strings items).
Proof.
  unfold strictly_ascending, sorted_unique_strings, sorted, list_set.
  split.
  - apply StronglySorted_merge_sort; apply _.
  - rewrite merge_sort_Permutation. apply NoDup_elements.
Qed.

Lemma sorted_unique_strings_elem (items : list (Item Unit)) (s : string) :
  s ∈ sorted_unique_strings items <-> s ∈ unit_strings items.
Proof.
  unfold sorted_unique_strings, sorted, list_set.
  rewrite merge_sort_Permutation, elem_of_elements, elem_of_list_to_set.
  reflexivity.
Qed.

Lemma unit_strings_app (l1 l2 : list (Item Unit)) :
  unit_strings (l1 ++ l2) = unit_strings l1 ++ unit_strings l2.
Proof.
  induction l1 as [|[s|un|] l1 IH]; simpl; rewrite ?IH; reflexivity.
Qed.

Lemma unit_strings_elem (x : Item Unit) (l : list (Item Unit)) (s : string) :
  x ∈ l -> unit_strings [x] = [s] -> s ∈ unit_strings l.
Proof.
  induction 1 as [x l|x y l Hin IH]; intros Hx.
  - change (x :: l) with ([x] ++ l). rewrite unit_strings_app, Hx.
    apply elem_of_app; left; apply list_elem_of_here.
  - change (y :: l) with ([y] ++ l). rewrite unit_strings_app.
    apply elem_of_app; right; auto.
Qed.

(** An item [add_unit] was given is afterwards in the list, or some item
    already there compares equal to it. *)
Lemma append_if_new_covers (item : Item Unit) (l : list (Item Unit)) :
  is_str_or_unit item = true ->
  item ∈ append_if_new item l \/
  exists x, x ∈ l /\ item_eq x item = true.
Proof.
  intros Hk. unfold append_if_new. rewrite Hk.
  destruct (py_in item l) eqn:Hin; simpl.
  - right. unfold py_in in Hin. apply existsb_exists in Hin as (x & Hx & He).
    exists x. split; [now apply list_elem_of_In|assumption].
  - left. apply elem_of_app; right. apply list_elem_of_here.
Qed.

Lemma append_if_new_keeps (item x : Item Unit) (l : list (Item Unit)) :
  x ∈ l -> x ∈ append_if_new item l.
Proof.
  intros Hx. unfold append_if_new.
  destruct (is_str_or_unit item); [|assumption].
  destruct (negb (py_in item l)); [|assumption].
  apply elem_of_app; now left.
Qed.

(** C2. After any sequence of [add_unit], [add_pixel_unit] and
    [add_solid_angle_unit] calls (strings, unit objects and other
    objects, repeated or not), every listing of either registry is sorted
    in ascending lexicographic order and holds no string twice. *)
Theorem get_unit_list_sorted_unique (calls : list RegistryCall)
  (rs : Registries) (pixel_only solid_angle_only : bool) :
  strictly_ascending (FluxUnitRegistry.get_unit_list (run_calls calls rs).1) /\
  strictly_ascending
    (AreaUnitRegistry.get_unit_list (run_calls calls rs).2
       pixel_only solid_angle_only).
Proof.
  split.
  - unfold FluxUnitRegistry.get_unit_list.
    apply sorted_unique_strings_ascending.
  - unfold AreaUnitRegistry.get_unit_list.
    apply sorted_unique_strings_ascending.
Qed.
End RegistryProperties.

(** ** Wavelengths and redshift *)
Section UnitControllerProperties.
Context {num : Type} `{PyNum num} `{LengthScale num} `{LengthNames}.

(** C4. Assigning [redshift_z] the value it already holds, directly or
    through the [change_redshift] listener, returns with the controller
    unchanged: no attribute is written and no call reaches the layout, the
    slice controller or the dispatch channel. *)
Theorem redshift_same_value_no_effect (self : UnitController)
  (z : option num) :
  py_eq (_redshift_z self) z = true ->
  set_redshift_z z self = Ok tt self /\ change_redshift z self = Ok tt self.
Proof.
  intros Heq. unfold change_redshift, register_listener, set_redshift_z.
  rewrite Heq. split; reflexivity.
Qed.

(** C3. For a controller holding the wavelengths [orig], assigning a
    redshift [z] that differs from the stored one returns with
    [orig / (1 + z)] stored as the wavelengths and pushed last to the slice
    controller, with the label set to the rest-wavelength text when
    [z > 0] and to the observed-wavelength text otherwise, and with [z]
    published on the dispatch channel. *)
Theorem redshift_transform (self : UnitController) (z : num)
  (orig : list num) :
  _original_wavelengths self = Some orig ->
  py_eq (_redshift_z self) (Some z) = false ->
  let w := map (fun x => num_div x (num_add num_one z)) orig in
  let label := if num_ltb num_zero z then REST_WAVELENGTH_TEXT
               else OBS_WAVELENGTH_TEXT in
  let pushed := if num_ltb num_zero z
                then map (num_mul (num_add num_one z)) orig else orig in
  exists self',
    set_redshift_z (Some z) self = Ok tt self' /\
    _redshift_z self' = Some z /\
    _wavelengths self' = Some w /\
    _wavelength_textbox_label self' = label /\
    _original_wavelengths self' = Some orig /\
    trace self' =
      trace self ++
      [SliceSetLabel label;
       LayoutSetWavelengths (WArray pushed) (_new_units self);
       SliceSetWavelengths (WArray w) (_new_units self);
       EmitChangeRedshift (Some z)].
Proof.
  intros Horig Hne w label pushed. subst w label pushed.
  unfold set_redshift_z. rewrite Hne. unfold bind.
  destruct (num_ltb num_zero z) eqn:Hpos.
  - unfold rest_arm; simpl. rewrite Horig. unfold recompute; simpl.
    rewrite Horig. eexists. split; [reflexivity|]. simpl.
    repeat split; try assumption.
    rewrite <- !app_assoc. reflexivity.
  - unfold obs_arm; simpl. unfold recompute; simpl.
    rewrite Horig. eexists. split; [reflexivity|]. simpl.
    repeat split; try assumption.
    rewrite <- !app_assoc. reflexivity.
Qed.

(** Assigning [None] where a number is stored sets the observed label,
    hands the layout the unscaled wavelengths and then fails in
    [1 + self._redshift_z]. *)
Lemma set_redshift_z_None (self : UnitController) (z : num) :
  _redshift_z self = Some z ->
  exists self', set_redshift_z None self = Raise TypeError self' /\
                _redshift_z self' = None.
Proof.
  intros Hz. unfold set_redshift_z. rewrite Hz. simpl.
  unfold bind, obs_arm, recompute; simpl.
  destruct (_original_wavelengths self); eexists; split; reflexivity.
Qed.

(** With no original wavelengths the conversion gives [False], which
    passes the [is None] test and is handed to the layout. *)
Lemma on_combobox_change_absent (self : UnitController) (name : string)
  (i : nat) (un : LUnit) :
  _original_wavelengths self = None ->
  index_of name _units_titles = Some i ->
  _units !! i = Some un ->
  exists self',
    on_combobox_change name self = Ok tt self' /\
    _new_wavelengths self' = WFalse /\
    trace self' = trace self ++ [LayoutSetWavelengths WFalse un].
Proof.
  intros Hnone Hi Hun. unfold on_combobox_change.
  rewrite Hi, Hun, Hnone. simpl.
  eexists. split; [reflexivity|]. split; reflexivity.
Qed.
End UnitControllerProperties.

(** C5. [convert_wavelengths] returns [False] for an absent input,
    whatever the numbers and units; on present values it returns each
    value multiplied by the quotient of the old unit's scale and the new
    unit's scale.  In the code's binary64 arithmetic 1000 nm come out as
    9999.999999999998 Angstrom, which is 10000 to within 1e-11. *)
Theorem convert_wavelengths_rescales :
  (forall (num : Type) (P : PyNum num) (L : LengthScale num)
          (old_units new_units : LUnit),
     convert_wavelengths (num := num) None old_units new_units = WFalse) /\
  (forall (num : Type) (P : PyNum num) (L : LengthScale num)
          (ws : list num) (old_units new_units : LUnit),
     convert_wavelengths (Some ws) old_units new_units
     = WArray (map (fun w =>
                      num_mul w (num_div (si_scale old_units)
                                         (si_scale new_units))) ws)) /\
  (exists x,
     convert_wavelengths (num := float) (Some [1000%float]) Lnm LAA
     = WArray [x] /\
     x = 0x1.387ffffffffffp+13%float /\
     PrimFloat.ltb (PrimFloat.abs (PrimFloat.sub x 10000))
                   0x1.5fd7fe1796495p-37 = true).
Proof.
  split; [reflexivity|]. split; [reflexivity|].
  eexists. split; [vm_compute; reflexivity|].
  split; [reflexivity|]. vm_compute. reflexivity.
Qed.

(** In binary64 the conversion of 1000 nm does not give 10000. *)
Lemma convert_1000_nm_is_not_10000 :
  convert_wavelengths (num := float) (Some [1000%float]) Lnm LAA
  = WArray [0x1.387ffffffffffp+13%float] /\
  num_eqb 0x1.387ffffffffffp+13%float 10000%float = false /\
  convert_wavelengths (num := float) (Some [1000%float]) Lnm LAA
  <> WArray [10000%float].
Proof.
  assert (Hrun : convert_wavelengths (num := float) (Some [1000%float])
                   Lnm LAA = WArray [0x1.387ffffffffffp+13%float])
    by (vm_compute; reflexivity).
  split; [exact Hrun|]. split; [vm_compute; reflexivity|].
  rewrite Hrun. discriminate.
Qed.

(** C8. With the original wavelengths absent, choosing "Nanometer" in the
    combo box hands the layout the value [False] that the conversion
    returned, whatever the number type and the unit scales. *)
Theorem on_combobox_change_forwards_False :
  forall (num : Type) (P : PyNum num) (L : LengthScale num),
  exists self',
    on_combobox_change (num := num) "Nanometer"
      (UnitController_init None "Wavelength") = Ok tt self' /\
    _new_wavelengths self' = WFalse /\
    trace self' = [LayoutSetWavelengths WFalse Lnm].
Proof.
  intros num P L.
  assert (Hi : index_of "Nanometer" _units_titles = Some 4%nat)
    by (vm_compute; reflexivity).
  destruct (on_combobox_change_absent (num := num)
              (UnitController_init None "Wavelength") "Nanometer" 4 Lnm
              eq_refl Hi eq_refl) as (self' & Hrun & Hnew & Htr).
  exists self'. split; [exact Hrun|]. split; [exact Hnew|exact Htr].
Qed.

Lemma redshift_same_value_no_effect_witness :
  py_eq (_redshift_z (UnitController_init (Some [1; 2; 3]%float) "Wavelength"))
        (Some 0%float) = true /\
  set_redshift_z (Some 0%float)
    (UnitController_init (Some [1; 2; 3]%float) "Wavelength")
  = Ok tt (UnitController_init (Some [1; 2; 3]%float) "Wavelength").
Proof.
  split; [reflexivity|].
  apply (redshift_same_value_no_effect
           (UnitController_init (Some [1; 2; 3]%float) "Wavelength")
           (Some 0%float)).
  reflexivity.
Defined.

(** Wavelengths [1, 2, 3] m and [z = 1] give [0.5, 1, 1.5] m and the
    rest-wavelength label. *)
Lemma redshift_transform_witness :
  _original_wavelengths
    (UnitController_init (Some [1; 2; 3]%float) "Wavelength")
  = Some [1; 2; 3]%float /\
  py_eq (_redshift_z (UnitController_init (Some [1; 2; 3]%float) "Wavelength"))
        (Some 1%float) = false /\
  exists self',
    set_redshift_z (Some 1%float)
      (UnitController_init (Some [1; 2; 3]%float) "Wavelength") = Ok tt self' /\
    _wavelengths self' = Some [0.5; 1; 1.5]%float /\
    _wavelength_textbox_label self' = REST_WAVELENGTH_TEXT.
Proof.
  split; [reflexivity|]. split; [reflexivity|].
  destruct (redshift_transform
              (UnitController_init (Some [1; 2; 3]%float) "Wavelength")
              1%float [1; 2; 3]%float)
    as (self' & Hrun & _ & Hw & Hl & _); [reflexivity..|].
  exists self'. split; [exact Hrun|]. split; [exact Hw|exact Hl].
Defined.

(** ** Classification of component units *)
Section FluxUnitControllerProperties.
Context {Unit : Type} `{Astropy Unit} `{PyRuntime}.

Ltac run := unfold bind, lift, ret, raise, getitem; simpl.

(** What the registered branch returns on a record that [alias_ok]
    accepts. *)
Lemma classify_registered_ok (s : string) (r : ydict) (e : Env) :
  alias_ok s r e = true ->
  exists sf af numeric,
    r !! "spectral_flux_density" = Some sf /\
    r !! "area" = Some af /\
    classify_registered s r e =
      Ok (SpectralFluxDensity (string_to_unit (alias_unit_string s r) e)
            (alias_unit_string s r) (Some numeric)
            (string_to_unit sf e) (string_to_unit af e) true)
         (with_flux
            (FluxUnitRegistry.add_unit (item_of (string_to_unit sf e))) e).
Proof.
  unfold alias_ok, classify_registered.
  fold (alias_unit_string s r).
  destruct (r !! "numeric") as [nf|] eqn:Hnf; [|discriminate].
  destruct (r !! "spectral_flux_density") as [sf|] eqn:Hsf; [|discriminate].
  destruct (r !! "area") as [af|] eqn:Haf; [|discriminate].
  run. rewrite Hnf, Hsf, Haf.
  destruct (truthy nf).
  - destruct (py_float nf) as [ex|f]; [discriminate|]. intros _.
    exists sf, af, f. repeat split; reflexivity.
  - destruct (string_to_unit (alias_unit_string s r) e) as [un|];
      [|discriminate]. intros _.
    exists sf, af, (scale un). repeat split; reflexivity.
Qed.

(** A record without one of the three keys makes the registered branch
    raise. *)
Lemma classify_registered_no_area (s : string) (r : ydict) (e : Env)
  (nf sf : yval) :
  r !! "numeric" = Some nf -> truthy nf = true ->
  (exists f, py_float nf = inr f) ->
  r !! "spectral_flux_density" = Some sf ->
  r !! "area" = None ->
  classify_registered s r e = Raise (KeyError "area") e.
Proof.
  intros Hnf Ht (f & Hf) Hsf Ha. unfold classify_registered. run.
  rewrite Hnf, Ht, Hf, Hsf, Ha. reflexivity.
Qed.

Lemma add_component_unit_empty (e : Env) (component_id : string)
  (unit : UnitArg Unit) :
  unit_to_string unit = inr "" ->
  add_component_unit component_id unit e =
    Ok NoneUnit (with_components <[component_id := NoneUnit]> e).
Proof.
  intros Hs. unfold add_component_unit. run. rewrite Hs. reflexivity.
Qed.

Lemma truthy_nonempty (s : string) : s <> "" -> truthy (YStr s) = true.
Proof.
  intros Hs. simpl. destruct (String.eqb s "") eqn:He; [|reflexivity].
  apply String.eqb_eq in He. contradiction.
Qed.

Lemma add_component_unit_registered (e : Env) (component_id : string)
  (unit : UnitArg Unit) (s : string) (r : ydict) :
  unit_to_string unit = inr s -> s <> "" ->
  registered_units e !! s = Some r -> alias_ok s r e = true ->
  exists sf af numeric,
    r !! "spectral_flux_density" = Some sf /\
    r !! "area" = Some af /\
    let cu := SpectralFluxDensity (string_to_unit (alias_unit_string s r) e)
                (alias_unit_string s r) (Some numeric)
                (string_to_unit sf e) (string_to_unit af e) true in
    add_component_unit component_id unit e =
      Ok cu (with_components <[component_id := cu]>
               (with_flux (FluxUnitRegistry.add_unit
                             (item_of (string_to_unit sf e))) e)).
Proof.
  intros Hs Hne Hr Hok.
  destruct (classify_registered_ok s r e Hok) as (sf & af & n & Hsf & Haf & Hc).
  exists sf, af, n. split; [exact Hsf|]. split; [exact Haf|].
  unfold add_component_unit. run. rewrite Hs.
  pose proof (truthy_nonempty s Hne) as Ht. simpl in Ht. rewrite Ht. simpl.
  rewrite Hr, Hc. reflexivity.
Qed.

(** The plain branch always returns. *)
Lemma classify_plain_returns (s : string) (e : Env) :
  exists cu e', classify_plain s e = Ok cu e' /\
    enabled e' = enabled e /\ registered_units e' = registered_units e /\
    (string_to_unit (YStr s) e = None -> cu = UnknownUnit None (YStr s)).
Proof.
  unfold classify_plain.
  destruct (string_to_unit (YStr s) e) as [un|].
  - destruct (str_contains "spectral flux density" (physical_type un)).
    + eexists _, _. split; [reflexivity|]. repeat split. discriminate.
    + eexists _, _. split; [reflexivity|]. repeat split. discriminate.
  - eexists _, _. split; [reflexivity|]. repeat split.
Qed.

Lemma add_component_unit_bad_type (e : Env) (component_id : string)
  (unit : UnitArg Unit) (ex : exn) :
  unit_to_string unit = inl ex ->
  add_component_unit component_id unit e = Raise ex e.
Proof.
  intros Hs. unfold add_component_unit. run. rewrite Hs. reflexivity.
Qed.

(** Whatever the registered branch returns is a formatted
    [SpectralFluxDensity]. *)
Lemma classify_registered_inv (s : string) (r : ydict) (e e' : Env)
  (cu : CubeVizUnit Unit) :
  classify_registered s r e = Ok cu e' ->
  exists un us numeric sfd area,
    cu = SpectralFluxDensity un us numeric sfd area true.
Proof.
  unfold classify_registered, SpectralFluxDensity_init. run.
  destruct (r !! "numeric") as [nf|]; simpl; [|discriminate].
  destruct (truthy nf).
  - destruct (py_float nf); simpl; [discriminate|].
    destruct (r !! "spectral_flux_density"); simpl; [|discriminate].
    destruct (r !! "area"); simpl; [|discriminate].
    intros [= <- _]. eauto 6.
  - destruct (string_to_unit _ e); simpl; [|discriminate].
    destruct (r !! "spectral_flux_density"); simpl; [|discriminate].
    destruct (r !! "area"); simpl; [|discriminate].
    intros [= <- _]. eauto 6.
Qed.

(** What the plain branch returns carries the unit astropy parsed from
    the string, if any. *)
Lemma classify_plain_inv (s : string) (e e' : Env) (cu : CubeVizUnit Unit) :
  classify_plain s e = Ok cu e' ->
  cu = UnknownUnit (string_to_unit (YStr s) e) (YStr s) \/
  exists un numeric sfd,
    cu = SpectralFluxDensity (Some un) (YStr s) numeric sfd None false.
Proof.
  unfold classify_plain, SpectralFluxDensity_init.
  destruct (string_to_unit (YStr s) e) as [un|].
  - destruct (str_contains "spectral flux density" (physical_type un));
      intros [= <- _]; eauto.
  - intros [= <- _]. left; reflexivity.
Qed.

(** The three shapes of a returned classification; the result is stored
    under the identifier. *)
Lemma add_component_unit_inv (e e' : Env) (component_id : string)
  (unit : UnitArg Unit) (cu : CubeVizUnit Unit) :
  add_component_unit component_id unit e = Ok cu e' ->
  components e' !! component_id = Some cu /\
  (cu = NoneUnit \/
   (exists un us numeric sfd area fmt,
      cu = SpectralFluxDensity un us numeric sfd area fmt) \/
   exists s, cu = UnknownUnit (string_to_unit (YStr s) e) (YStr s)).
Proof.
  unfold add_component_unit. run.
  destruct (unit_to_string unit) as [ex|s]; [discriminate|].
  destruct (negb (negb (s =? "")%string)).
  { intros [= <- <-]. split; [simpl; apply lookup_insert_eq|]. now left. }
  destruct (registered_units e !! s) as [r|].
  - destruct (classify_registered s r e) as [cu0 e0|] eqn:Hc; [|discriminate].
    intros [= <- <-]. split; [simpl; apply lookup_insert_eq|].
    apply classify_registered_inv in Hc as (un & us & n & sfd & ar & ->).
    right; left. eauto 7.
  - destruct (classify_plain s e) as [cu0 e0|] eqn:Hc; [|discriminate].
    intros [= <- <-]. split; [simpl; apply lookup_insert_eq|].
    apply classify_plain_inv in Hc as [->|(un & n & sfd & ->)].
    + right; right. eauto.
    + right; left. eauto 7.
Qed.

(** C1. A unit whose string form is empty (or that is [None]) is
    classified as [NoneUnit]; a non-empty string that is a key of
    [registered_units] with a record carrying what the branch reads is
    classified as a [SpectralFluxDensity] built with [is_formatted=True].
    Either way the result is stored under the component identifier. *)
Theorem add_component_unit_classification (e : Env) (component_id : string)
  (unit : UnitArg Unit) (s : string) :
  unit_to_string unit = inr s ->
  (s = "" \/
   exists r, registered_units e !! s = Some r /\ alias_ok s r e = true) ->
  exists cu e',
    add_component_unit component_id unit e = Ok cu e' /\
    components e' !! component_id = Some cu /\
    (s = "" -> cu = NoneUnit) /\
    (s <> "" ->
     cu_type cu = "FormattedSpectralFluxDensity" /\
     exists un us numeric sfd area,
       cu = SpectralFluxDensity un us numeric sfd area true).
Proof.
  intros Hs Hcase.
  destruct (decide (s = "")) as [->|Hne].
  - exists NoneUnit, (with_components <[component_id := NoneUnit]> e).
    split; [apply add_component_unit_empty; exact Hs|].
    split; [simpl; apply lookup_insert_eq|].
    split; [reflexivity|]. intros Hc; contradiction.
  - destruct Hcase as [->|(r & Hr & Hok)]; [contradiction|].
    destruct (add_component_unit_registered e component_id unit s r
                Hs Hne Hr Hok) as (sf & af & n & _ & _ & Hrun).
    simpl in Hrun. eexists _, _. split; [exact Hrun|].
    split; [simpl; apply lookup_insert_eq|].
    split; [intros Hc; contradiction|]. intros _.
    split; [reflexivity|]. eexists _, _, _, _, _. reflexivity.
Qed.

(** C6. A unit argument that has a string form ([None], a string, an
    instance of [u.Unit], a [Quantity]) and that is not the key of an alias
    record lacking what the branch reads makes [add_component_unit] return
    a CubeVizUnit and store it: [NoneUnit] for the empty string,
    [UnknownUnit] without a unit object for an unregistered string astropy
    does not parse. *)
Theorem add_component_unit_returns (e : Env) (component_id : string)
  (unit : UnitArg Unit) (s : string) :
  unit_to_string unit = inr s ->
  (forall r, s <> "" -> registered_units e !! s = Some r ->
             alias_ok s r e = true) ->
  exists cu e',
    add_component_unit component_id unit e = Ok cu e' /\
    components e' !! component_id = Some cu /\
    (s = "" -> cu = NoneUnit) /\
    (s <> "" -> registered_units e !! s = None ->
     string_to_unit (YStr s) e = None -> cu = UnknownUnit None (YStr s)).
Proof.
  intros Hs Hreg.
  destruct (decide (s = "")) as [->|Hne].
  - exists NoneUnit, (with_components <[component_id := NoneUnit]> e).
    split; [apply add_component_unit_empty; exact Hs|].
    split; [simpl; apply lookup_insert_eq|].
    split; [reflexivity|]. intros Hc; contradiction.
  - destruct (registered_units e !! s) as [r|] eqn:Hr.
    + destruct (add_component_unit_registered e component_id unit s r
                  Hs Hne Hr (Hreg r Hne eq_refl))
        as (sf & af & n & _ & _ & Hrun).
      simpl in Hrun. eexists _, _. split; [exact Hrun|].
      split; [simpl; apply lookup_insert_eq|].
      split; [intros Hc; contradiction|]. intros _ Hc; discriminate.
    + destruct (classify_plain_returns s e) as (cu & e' & Hc & _ & _ & Hu).
      exists cu, (with_components <[component_id := cu]> e').
      split.
      * unfold add_component_unit. run. rewrite Hs.
        pose proof (truthy_nonempty s Hne) as Ht. simpl in Ht. rewrite Ht.
        simpl. rewrite Hr, Hc. reflexivity.
      * split; [simpl; apply lookup_insert_eq|].
        split; [intros Hc'; contradiction|]. intros _ _ Hp. exact (Hu Hp).
Qed.

(** C9. For a non-empty alias [s] whose record carries what the branch
    reads, whose [spectral_flux_density] field parses to the unit [q], and
    where no item already in the run-time list compares equal to [q] while
    printing differently: classifying [s] gives a convertible
    [SpectralFluxDensity] with sub-unit [q], and [q]'s string is then in
    [FLUX_UNIT_REGISTRY.get_unit_list()]. *)
Theorem registered_alias_round_trip (e : Env) (component_id s : string)
  (r : ydict) (sf : yval) (q : Unit) :
  s <> "" ->
  registered_units e !! s = Some r ->
  alias_ok s r e = true ->
  r !! "spectral_flux_density" = Some sf ->
  string_to_unit sf e = Some q ->
  (forall x, x ∈ FluxUnitRegistry.runtime_defined_units (FLUX_UNIT_REGISTRY e) ->
             item_eq x (ItemUnit q) = true ->
             unit_strings [x] = [to_string q]) ->
  exists cu e',
    add_component_unit component_id (ArgStr s) e = Ok cu e' /\
    is_convertable cu = true /\
    cu_type cu = "FormattedSpectralFluxDensity" /\
    cu_spectral_flux_density cu = Some q /\
    to_string q ∈ FluxUnitRegistry.get_unit_list (FLUX_UNIT_REGISTRY e').
Proof.
  intros Hne Hr Hok Hsf Hq Hsame.
  destruct (add_component_unit_registered e component_id (ArgStr s) s r
              eq_refl Hne Hr Hok) as (sf' & af & n & Hsf' & _ & Hrun).
  rewrite Hsf in Hsf'. injection Hsf' as <-.
  simpl in Hrun. rewrite Hq in Hrun. eexists _, _. split; [exact Hrun|].
  split; [reflexivity|]. split; [reflexivity|]. split; [reflexivity|].
  simpl. unfold FluxUnitRegistry.get_unit_list.
  apply sorted_unique_strings_elem. rewrite !unit_strings_app.
  apply elem_of_app; right. apply elem_of_app; right. simpl.
  destruct (append_if_new_covers (ItemUnit q)
              (FluxUnitRegistry.runtime_defined_units (FLUX_UNIT_REGISTRY e))
              eq_refl) as [Hin|(x & Hx & Heq)].
  - apply (unit_strings_elem (ItemUnit q)); [exact Hin|reflexivity].
  - apply (unit_strings_elem x).
    + apply append_if_new_keeps. exact Hx.
    + apply Hsame; assumption.
Qed.

(** C10. [get_component_unit] gives [None] for an identifier that is not
    in the component map, and also for every entry that
    [add_component_unit] classified as [NoneUnit], or as [UnknownUnit] from
    a unit string astropy did not parse. *)
Theorem get_component_unit_none :
  (forall (e : Env (Unit := Unit)) (component_id : string),
     components e !! component_id = None ->
     get_component_unit component_id e = None) /\
  (forall (e e' : Env) (component_id : string) (unit : UnitArg Unit)
          (cu : CubeVizUnit Unit),
     add_component_unit component_id unit e = Ok cu e' ->
     cu_type cu = "NoneUnit" \/
     (cu_type cu = "UnknownUnit" /\ string_to_unit (cu_unit_string cu) e = None) ->
     components e' !! component_id = Some cu /\
     get_component_unit component_id e' = None).
Proof.
  split.
  - intros e cid Hnone. unfold get_component_unit. rewrite Hnone. reflexivity.
  - intros e e' cid unit cu Hrun Hcls.
    destruct (add_component_unit_inv e e' cid unit cu Hrun)
      as (Hstored & Hshape).
    split; [exact Hstored|].
    unfold get_component_unit. rewrite Hstored.
    destruct Hshape as [->|[(un & us & n & sfd & ar & fmt & ->)|(s & ->)]].
    + reflexivity.
    + destruct Hcls as [Hn|[Hu _]]; destruct fmt; discriminate.
    + destruct Hcls as [Hn|[_ Hp]]; [discriminate|]. simpl in *. exact Hp.
Qed.

(** A configured name that astropy already knows leaves the loop variable
    as it was: unbound in the first pass (the pass raises), and otherwise
    still holding the unit of an earlier pass, which is registered again. *)
Lemma init_step_existing (new_unit : ydict) (name : string) (known : Unit)
  (e : Env) :
  new_unit !! "name" = Some (YStr name) ->
  u_Unit (enabled e) (YStr name) = Some known ->
  init_step new_unit None e = Raise UnboundLocalError e /\
  forall earlier,
    init_step new_unit (Some earlier) e =
      (_ <- register_new_unit earlier ;; ret (Some earlier)) e.
Proof.
  intros Hname Hknown. unfold init_step. run. rewrite Hname, Hknown.
  split; [reflexivity|]. intros earlier. reflexivity.
Qed.
End FluxUnitControllerProperties.

(** ** The properties on the sample configuration *)

(** C7. Constructing the controller from a configuration whose only
    custom unit is already known to astropy raises [UnboundLocalError];
    when the known name follows a newly defined one, the earlier unit is
    registered a second time and the known one, a flux density, is not
    registered. *)
Theorem constructor_existing_unit_not_reused :
  FluxUnitController_init Sample.cfg_existing []
    FluxUnitRegistry.init AreaUnitRegistry.init
  = Raise UnboundLocalError
      (mkEnv [] FluxUnitRegistry.init AreaUnitRegistry.init ∅ None ∅) /\
  exists e,
    FluxUnitController_init Sample.cfg_new_then_existing []
      FluxUnitRegistry.init AreaUnitRegistry.init = Ok tt e /\
    enabled e = ["spaxel"; "spaxel"] /\
    FluxUnitRegistry.is_flux "Jy" = true /\
    FluxUnitRegistry.runtime_defined_units (FLUX_UNIT_REGISTRY e) = [].
Proof.
  split; [vm_compute; reflexivity|].
  eexists. split; [vm_compute; reflexivity|].
  split; [reflexivity|]. split; vm_compute; reflexivity.
Qed.

(** An alias whose record has no [area] key: the call raises
    [KeyError], so not every key of the table is classified. *)
Lemma alias_without_area_raises :
  Sample.aliases !! "flux per second" = Some Sample.no_area_record /\
  add_component_unit "flux" (ArgStr "flux per second") Sample.env0
  = Raise (KeyError "area") Sample.env0 /\
  ~ (forall s r, registered_units Sample.env0 !! s = Some r ->
       exists cu e',
         add_component_unit "flux" (ArgStr s) Sample.env0 = Ok cu e' /\
         cu_type cu = "FormattedSpectralFluxDensity").
Proof.
  assert (Hk : Sample.aliases !! "flux per second"
               = Some Sample.no_area_record) by (vm_compute; reflexivity).
  assert (Hr : add_component_unit "flux" (ArgStr "flux per second")
                 Sample.env0 = Raise (KeyError "area") Sample.env0)
    by (vm_compute; reflexivity).
  split; [exact Hk|]. split; [exact Hr|].
  intros Hall. destruct (Hall _ _ Hk) as (cu & e' & Hrun & _).
  rewrite Hr in Hrun. discriminate.
Qed.

(** A unit argument of another type: the call raises [ValueError]. *)
Lemma other_type_raises :
  add_component_unit "flux" ArgOther Sample.env0
  = Raise ValueError Sample.env0 /\
  ~ returns (add_component_unit "flux" ArgOther Sample.env0).
Proof.
  assert (Hr : add_component_unit "flux" ArgOther Sample.env0
               = Raise ValueError Sample.env0) by reflexivity.
  split; [exact Hr|]. rewrite Hr. simpl. tauto.
Qed.

(** An alias whose flux field astropy does not parse: the classification
    is convertible but has no flux sub-unit, and the listing is what it
    was. *)
Lemma alias_with_odd_flux_has_no_subunit :
  Sample.aliases !! "counts per pixel" = Some Sample.odd_flux_record /\
  exists cu e',
    add_component_unit "flux" (ArgStr "counts per pixel") Sample.env0
    = Ok cu e' /\
    is_convertable cu = true /\
    cu_spectral_flux_density cu = None /\
    FluxUnitRegistry.get_unit_list (FLUX_UNIT_REGISTRY e')
    = FluxUnitRegistry.get_unit_list (FLUX_UNIT_REGISTRY Sample.env0) /\
    ~ (exists q, cu_spectral_flux_density cu = Some q /\
                 to_string q ∈
                   FluxUnitRegistry.get_unit_list (FLUX_UNIT_REGISTRY e')).
Proof.
  split; [vm_compute; reflexivity|].
  eexists _, _. split; [vm_compute; reflexivity|].
  split; [reflexivity|]. split; [reflexivity|].
  split; [vm_compute; reflexivity|].
  intros (q & Hq & _). discriminate.
Qed.

Lemma add_component_unit_classification_witness :
  unit_to_string (ArgStr "1E-17 erg/s/cm^2/Angstrom/spaxel")
  = inr "1E-17 erg/s/cm^2/Angstrom/spaxel" /\
  registered_units Sample.env0 !! "1E-17 erg/s/cm^2/Angstrom/spaxel"
  = Some Sample.full_record /\
  alias_ok "1E-17 erg/s/cm^2/Angstrom/spaxel" Sample.full_record Sample.env0
  = true /\
  exists cu e',
    add_component_unit "flux" (ArgStr "1E-17 erg/s/cm^2/Angstrom/spaxel")
      Sample.env0 = Ok cu e' /\
    cu_type cu = "FormattedSpectralFluxDensity".
Proof.
  assert (Hk : registered_units Sample.env0
                 !! "1E-17 erg/s/cm^2/Angstrom/spaxel"
               = Some Sample.full_record) by (vm_compute; reflexivity).
  assert (Hok : alias_ok "1E-17 erg/s/cm^2/Angstrom/spaxel"
                  Sample.full_record Sample.env0 = true)
    by (vm_compute; reflexivity).
  split; [reflexivity|]. split; [exact Hk|]. split; [exact Hok|].
  destruct (add_component_unit_classification Sample.env0 "flux"
              (ArgStr "1E-17 erg/s/cm^2/Angstrom/spaxel")
              "1E-17 erg/s/cm^2/Angstrom/spaxel" eq_refl
              (or_intror (ex_intro _ Sample.full_record (conj Hk Hok))))
    as (cu & e' & Hrun & _ & _ & Hfmt).
  exists cu, e'. split; [exact Hrun|].
  apply Hfmt. discriminate.
Defined.

Lemma add_component_unit_returns_witness :
  unit_to_string (ArgStr "furlong") = inr "furlong" /\
  registered_units Sample.env0 !! "furlong" = None /\
  exists cu e',
    add_component_unit "flux" (ArgStr "furlong") Sample.env0 = Ok cu e' /\
    components e' !! "flux" = Some cu.
Proof.
  assert (Hk : registered_units Sample.env0 !! "furlong" = None)
    by (vm_compute; reflexivity).
  split; [reflexivity|]. split; [exact Hk|].
  destruct (add_component_unit_returns Sample.env0 "flux"
              (ArgStr "furlong") "furlong" eq_refl)
    as (cu & e' & Hrun & Hst & _).
  - intros r _ Hr. rewrite Hk in Hr. discriminate.
  - exists cu, e'. split; [exact Hrun|exact Hst].
Defined.

Lemma registered_alias_round_trip_witness :
  registered_units Sample.env0 !! "1E-17 erg/s/cm^2/Angstrom/spaxel"
  = Some Sample.full_record /\
  string_to_unit (YStr "erg / (Angstrom cm2 s)") Sample.env0
  = Some "erg / (Angstrom cm2 s)" /\
  exists cu e',
    add_component_unit "flux" (ArgStr "1E-17 erg/s/cm^2/Angstrom/spaxel")
      Sample.env0 = Ok cu e' /\
    is_convertable cu = true /\
    "erg / (Angstrom cm2 s)" ∈
      FluxUnitRegistry.get_unit_list (FLUX_UNIT_REGISTRY e').
Proof.
  assert (Hk : registered_units Sample.env0
                 !! "1E-17 erg/s/cm^2/Angstrom/spaxel"
               = Some Sample.full_record) by (vm_compute; reflexivity).
  assert (Hq : string_to_unit (YStr "erg / (Angstrom cm2 s)") Sample.env0
               = Some "erg / (Angstrom cm2 s)") by (vm_compute; reflexivity).
  split; [exact Hk|]. split; [exact Hq|].
  destruct (registered_alias_round_trip Sample.env0 "flux"
              "1E-17 erg/s/cm^2/Angstrom/spaxel" Sample.full_record
              (YStr "erg / (Angstrom cm2 s)") "erg / (Angstrom cm2 s)")
    as (cu & e' & Hrun & Hconv & _ & _ & Hin).
  - discriminate.
  - exact Hk.
  - vm_compute; reflexivity.
  - vm_compute; reflexivity.
  - exact Hq.
  - intros x Hx. simpl in Hx. inversion Hx.
  - exists cu, e'. split; [exact Hrun|]. split; [exact Hconv|exact Hin].
Defined.

Lemma get_component_unit_none_witness :
  add_component_unit "mask" (ArgStr "") Sample.env0
  = Ok NoneUnit (with_components <["mask" := NoneUnit]> Sample.env0) /\
  get_component_unit "mask"
    (with_components <["mask" := NoneUnit]> Sample.env0) = None /\
  get_component_unit "flux" Sample.env0 = None.
Proof.
  assert (Hrun : add_component_unit "mask" (ArgStr "") Sample.env0
                 = Ok NoneUnit
                     (with_components <["mask" := NoneUnit]> Sample.env0))
    by reflexivity.
  split; [exact Hrun|]. split.
  - apply (proj2 get_component_unit_none Sample.env0 _ "mask" (ArgStr "")
             NoneUnit Hrun). left; reflexivity.
  - apply (proj1 get_component_unit_none Sample.env0 "flux"). reflexivity.
Defined.

(** * Further properties *)

(** ** Registries *)
Section RegistryExtras.
Context {Unit : Type} `{Astropy Unit}.

Lemma append_if_new_idem (item : Item Unit) (l : list (Item Unit)) :
  (forall un, item = ItemUnit un -> unit_eq un un = true) ->
  append_if_new item (append_if_new item l) = append_if_new item l.
Proof.
  intros Hrefl. unfold append_if_new.
  destruct (is_str_or_unit item) eqn:Hk; [|reflexivity].
  destruct (py_in item l) eqn:Hin; simpl.
  - rewrite ?Hk, ?Hin. reflexivity.
  - rewrite ?Hk.
    assert (Hself : py_in item (l ++ [item]) = true).
    { unfold py_in. rewrite existsb_app. simpl.
      assert (item_eq item item = true) as ->.
      { destruct item as [s|un|]; simpl.
        - apply String.eqb_refl.
        - apply (Hrefl un eq_refl).
        - discriminate. }
      rewrite orb_true_r. reflexivity. }
    rewrite Hself. reflexivity.
Qed.

(** X1. Adding an item a second time changes nothing, in each of the
    three run-time lists, for a string, for an object that is neither a
    string nor a unit, and for a unit that astropy compares equal to
    itself. *)
Theorem add_unit_idempotent (item : Item Unit)
  (flux : FluxUnitRegistry.t Unit) (area : AreaUnitRegistry.t Unit) :
  (forall un, item = ItemUnit un -> unit_eq un un = true) ->
  FluxUnitRegistry.add_unit item (FluxUnitRegistry.add_unit item flux)
  = FluxUnitRegistry.add_unit item flux /\
  AreaUnitRegistry.add_pixel_unit item
    (AreaUnitRegistry.add_pixel_unit item area)
  = AreaUnitRegistry.add_pixel_unit item area /\
  AreaUnitRegistry.add_solid_angle_unit item
    (AreaUnitRegistry.add_solid_angle_unit item area)
  = AreaUnitRegistry.add_solid_angle_unit item area.
Proof.
  intros Hrefl.
  unfold FluxUnitRegistry.add_unit, AreaUnitRegistry.add_pixel_unit,
    AreaUnitRegistry.add_solid_angle_unit; simpl.
  rewrite !(append_if_new_idem item _ Hrefl). repeat split.
Qed.

Lemma unit_strings_elem_inv (l : list (Item Unit)) (s : string) :
  s ∈ unit_strings l -> exists x, x ∈ l /\ unit_strings [x] = [s].
Proof.
  induction l as [|x l IH]; simpl; intros Hs.
  - inversion Hs.
  - destruct x as [t|un|].
    + apply elem_of_cons in Hs as [->|Hs].
      * exists (ItemStr t). split; [apply list_elem_of_here|reflexivity].
      * destruct (IH Hs) as (x & Hx & Hxs). exists x.
        split; [apply list_elem_of_further; exact Hx|exact Hxs].
    + apply elem_of_cons in Hs as [->|Hs].
      * exists (ItemUnit un). split; [apply list_elem_of_here|reflexivity].
      * destruct (IH Hs) as (x & Hx & Hxs). exists x.
        split; [apply list_elem_of_further; exact Hx|exact Hxs].
    + destruct (IH Hs) as (x & Hx & Hxs). exists x.
      split; [apply list_elem_of_further; exact Hx|exact Hxs].
Qed.

Lemma unit_strings_mono (l1 l2 : list (Item Unit)) (s : string) :
  (forall x, x ∈ l1 -> x ∈ l2) ->
  s ∈ unit_strings l1 -> s ∈ unit_strings l2.
Proof.
  intros Hsub Hs. destruct (unit_strings_elem_inv l1 s Hs) as (x & Hx & Hxs).
  apply (unit_strings_elem x); [apply Hsub; exact Hx|exact Hxs].
Qed.

(** Each call keeps the run-time lists, item for item. *)
Lemma run_call_le (rs : Registries (Unit := Unit)) (c : RegistryCall) :
  (forall x, x ∈ FluxUnitRegistry.runtime_defined_units rs.1 ->
             x ∈ FluxUnitRegistry.runtime_defined_units (run_call rs c).1) /\
  (forall x, x ∈ AreaUnitRegistry.runtime_pixel_units rs.2 ->
             x ∈ AreaUnitRegistry.runtime_pixel_units (run_call rs c).2) /\
  (forall x, x ∈ AreaUnitRegistry.runtime_solid_angle_units rs.2 ->
             x ∈ AreaUnitRegistry.runtime_solid_angle_units
                   (run_call rs c).2).
Proof.
  destruct rs as [f a], c as [i|i|i]; simpl;
    repeat split; intros x Hx; try exact Hx;
    apply append_if_new_keeps; exact Hx.
Qed.

Lemma run_calls_le (calls : list RegistryCall)
  (rs : Registries (Unit := Unit)) :
  (forall x, x ∈ FluxUnitRegistry.runtime_defined_units rs.1 ->
             x ∈ FluxUnitRegistry.runtime_defined_units
                   (run_calls calls rs).1) /\
  (forall x, x ∈ AreaUnitRegistry.runtime_pixel_units rs.2 ->
             x ∈ AreaUnitRegistry.runtime_pixel_units
                   (run_calls calls rs).2) /\
  (forall x, x ∈ AreaUnitRegistry.runtime_solid_angle_units rs.2 ->
             x ∈ AreaUnitRegistry.runtime_solid_angle_units
                   (run_calls calls rs).2).
Proof.
  revert rs. induction calls as [|c calls IH]; intros rs.
  - simpl. repeat split; auto.
  - unfold run_calls; simpl.
    destruct (run_call_le rs c) as (H1 & H2 & H3).
    destruct (IH (run_call rs c)) as (K1 & K2 & K3).
    repeat split; intros x Hx.
    + apply K1, H1, Hx.
    + apply K2, H2, Hx.
    + apply K3, H3, Hx.
Qed.

(** X2. The registries are append-only: a string that a listing shows is
    still shown, under the same filters, after any further sequence of
    add calls. *)
Theorem listings_only_grow (calls : list RegistryCall) (rs : Registries)
  (pixel_only solid_angle_only : bool) (s : string) :
  (s ∈ FluxUnitRegistry.get_unit_list rs.1 ->
   s ∈ FluxUnitRegistry.get_unit_list (run_calls calls rs).1) /\
  (s ∈ AreaUnitRegistry.get_unit_list rs.2 pixel_only solid_angle_only ->
   s ∈ AreaUnitRegistry.get_unit_list (run_calls calls rs).2
         pixel_only solid_angle_only).
Proof.
  destruct (run_calls_le calls rs) as (Hf & Hp & Ha).
  split.
  - unfold FluxUnitRegistry.get_unit_list.
    rewrite !sorted_unique_strings_elem, !unit_strings_app, !elem_of_app.
    intros [Hs|[Hs|Hs]]; [left|right; left|right; right]; try exact Hs.
    apply (unit_strings_mono _ _ s Hf Hs).
  - unfold AreaUnitRegistry.get_unit_list.
    rewrite !sorted_unique_strings_elem, !unit_strings_app, !elem_of_app.
    intros [Hs|Hs]; [left|right].
    + destruct solid_angle_only; simpl in *; [exact Hs|].
      rewrite unit_strings_app, elem_of_app in *.
      destruct Hs as [Hs|Hs]; [left|right; exact Hs].
      apply (unit_strings_mono _ _ s Hp Hs).
    + destruct pixel_only; simpl in *; [exact Hs|].
      rewrite unit_strings_app, elem_of_app in *.
      destruct Hs as [Hs|Hs]; [left|right; exact Hs].
      apply (unit_strings_mono _ _ s Ha Hs).
Qed.

(** X3. After [add_unit(item)] for a string or a unit, the listing shows
    the item's string, except when the run-time list already held an item
    that compares equal to it and prints differently. *)
Theorem add_unit_listed_or_shadowed (item : Item Unit) (s : string)
  (flux : FluxUnitRegistry.t Unit) :
  unit_strings [item] = [s] ->
  s ∈ FluxUnitRegistry.get_unit_list (FluxUnitRegistry.add_unit item flux) \/
  exists x, x ∈ FluxUnitRegistry.runtime_defined_units flux /\
            item_eq x item = true /\ unit_strings [x] <> [s].
Proof.
  intros Hitem.
  assert (Hk : is_str_or_unit item = true)
    by (destruct item; [reflexivity..|discriminate]).
  assert (Hshow : forall x,
             x ∈ append_if_new item
                   (FluxUnitRegistry.runtime_defined_units flux) ->
             unit_strings [x] = [s] ->
             s ∈ FluxUnitRegistry.get_unit_list
                   (FluxUnitRegistry.add_unit item flux)).
  { intros x Hx Hxs. unfold FluxUnitRegistry.get_unit_list.
    rewrite sorted_unique_strings_elem, !unit_strings_app, !elem_of_app.
    right; right. simpl. apply (unit_strings_elem x); assumption. }
  destruct (append_if_new_covers item
              (FluxUnitRegistry.runtime_defined_units flux) Hk)
    as [Hin|(x & Hx & Heq)].
  - left. apply (Hshow item Hin Hitem).
  - destruct (decide (unit_strings [x] = [s])) as [Hxs|Hxs].
    + left. apply (Hshow x); [apply append_if_new_keeps; exact Hx|exact Hxs].
    + right. exists x. repeat split; assumption.
Qed.

(** X4. With both filters set the area listing is empty, and the
    unfiltered listing shows exactly the strings of the pixel-only and of
    the solid-angle-only listing. *)
Theorem area_listing_filters (area : AreaUnitRegistry.t Unit) (s : string) :
  AreaUnitRegistry.get_unit_list area true true = [] /\
  (s ∈ AreaUnitRegistry.get_unit_list area false false <->
   s ∈ AreaUnitRegistry.get_unit_list area true false \/
   s ∈ AreaUnitRegistry.get_unit_list area false true).
Proof.
  split.
  - unfold AreaUnitRegistry.get_unit_list, sorted_unique_strings, sorted,
      list_set. simpl. rewrite elements_empty. reflexivity.
  - unfold AreaUnitRegistry.get_unit_list.
    rewrite !sorted_unique_strings_elem. simpl.
    rewrite ?app_nil_r, ?unit_strings_app, ?elem_of_app. simpl.
    tauto.
Qed.
End RegistryExtras.

(** ** The component map *)
Section FluxUnitControllerExtras.
Context {Unit : Type} `{Astropy Unit} `{PyRuntime}.

Ltac run := unfold bind, lift, ret, raise, getitem; simpl.

Lemma classify_registered_state (s : string) (r : ydict) (e : Env) :
  match classify_registered s r e with
  | Ok _ e' => exists item, e' = with_flux (FluxUnitRegistry.add_unit item) e
  | Raise _ e' => e' = e
  end.
Proof.
  unfold classify_registered, SpectralFluxDensity_init. run.
  destruct (r !! "numeric") as [nf|]; simpl; [|reflexivity].
  destruct (truthy nf).
  - destruct (py_float nf); simpl; [reflexivity|].
    destruct (r !! "spectral_flux_density"); simpl; [|reflexivity].
    destruct (r !! "area"); simpl; [|reflexivity]. eauto.
  - destruct (string_to_unit _ e); simpl; [|reflexivity].
    destruct (r !! "spectral_flux_density"); simpl; [|reflexivity].
    destruct (r !! "area"); simpl; [|reflexivity]. eauto.
Qed.

Lemma classify_plain_state (s : string) (e : Env) :
  match classify_plain s e with
  | Ok _ e' =>
      e' = e \/ exists item, e' = with_flux (FluxUnitRegistry.add_unit item) e
  | Raise _ _ => False
  end.
Proof.
  unfold classify_plain, SpectralFluxDensity_init.
  destruct (string_to_unit (YStr s) e) as [un|]; [|now left].
  destruct (str_contains "spectral flux density" (physical_type un));
    [right; eauto|now left].
Qed.

(** The state a call of [add_component_unit] leaves: untouched when it
    raises; otherwise the component stored, on top of at most one
    [add_unit] on the flux registry. *)
Lemma add_component_unit_state (component_id : string) (unit : UnitArg Unit)
  (e : Env) :
  match add_component_unit component_id unit e with
  | Ok cu e' =>
      exists e0,
        (e0 = e \/
         exists item, e0 = with_flux (FluxUnitRegistry.add_unit item) e) /\
        e' = with_components <[component_id := cu]> e0
  | Raise _ e' => e' = e
  end.
Proof.
  unfold add_component_unit. run.
  destruct (unit_to_string unit) as [ex|s]; [reflexivity|].
  destruct (negb (negb (s =? "")%string)).
  { exists e. split; [now left|reflexivity]. }
  destruct (registered_units e !! s) as [r|].
  - pose proof (classify_registered_state s r e) as Hst.
    destruct (classify_registered s r e) as [cu e0|ex e0]; [|exact Hst].
    exists e0. split; [right; exact Hst|reflexivity].
  - pose proof (classify_plain_state s e) as Hst.
    destruct (classify_plain s e) as [cu e0|ex e0]; [|contradiction].
    exists e0. split; [exact Hst|reflexivity].
Qed.

(** X5. A call of [add_component_unit] that raises has changed nothing:
    no component is stored and no unit registered. *)
Theorem add_component_unit_raise_keeps_state (component_id : string)
  (unit : UnitArg Unit) (e e' : Env) (ex : exn) :
  add_component_unit component_id unit e = Raise ex e' -> e' = e.
Proof.
  intros Hrun. pose proof (add_component_unit_state component_id unit e) as Hst.
  rewrite Hrun in Hst. exact Hst.
Qed.

(** X6. A call of [add_component_unit] that returns leaves every other
    component, the enabled units, the alias table, the data set and the
    area registry as they were, and appends at most one item to the flux
    registry's run-time list. *)
Theorem add_component_unit_frame (component_id : string)
  (unit : UnitArg Unit) (e e' : Env) (cu : CubeVizUnit Unit) :
  add_component_unit component_id unit e = Ok cu e' ->
  (forall other, other <> component_id ->
                 components e' !! other = components e !! other) /\
  enabled e' = enabled e /\
  registered_units e' = registered_units e /\
  data e' = data e /\
  AREA_UNIT_REGISTRY e' = AREA_UNIT_REGISTRY e /\
  (FluxUnitRegistry.runtime_defined_units (FLUX_UNIT_REGISTRY e')
   = FluxUnitRegistry.runtime_defined_units (FLUX_UNIT_REGISTRY e) \/
   exists item,
     FluxUnitRegistry.runtime_defined_units (FLUX_UNIT_REGISTRY e')
     = FluxUnitRegistry.runtime_defined_units (FLUX_UNIT_REGISTRY e)
       ++ [item]).
Proof.
  intros Hrun. pose proof (add_component_unit_state component_id unit e) as Hst.
  rewrite Hrun in Hst. destruct Hst as (e0 & [->|(item & ->)] & ->); simpl.
  - split; [intros other Hne; apply lookup_insert_ne; congruence|].
    repeat split. now left.
  - split; [intros other Hne; apply lookup_insert_ne; congruence|].
    repeat split. unfold append_if_new.
    destruct (is_str_or_unit item); [|now left].
    destruct (negb (py_in item _)); [right; eauto|now left].
Qed.

(** X7. For a non-empty unit string that is not an alias,
    [add_component_unit] returns, and [get_component_unit] then gives the
    unit astropy parses from the string ([None] if it parses to none).
    The component is convertible exactly when the string parses to a unit
    whose physical type contains "spectral flux density"; it is then an
    unformatted [SpectralFluxDensity] whose numeric is the unit's scale,
    and an [UnknownUnit] otherwise. *)
Theorem add_component_unit_plain (component_id : string)
  (unit : UnitArg Unit) (s : string) (e : Env) :
  unit_to_string unit = inr s -> s <> "" ->
  registered_units e !! s = None ->
  exists cu e',
    add_component_unit component_id unit e = Ok cu e' /\
    get_component_unit component_id e' = string_to_unit (YStr s) e /\
    cu_unit_string cu = YStr s /\
    match string_to_unit (YStr s) e with
    | Some un =>
        if str_contains "spectral flux density" (physical_type un)
        then cu = SpectralFluxDensity (Some un) (YStr s) (Some (scale un))
                    (string_to_unit (YStr (to_string_unscaled un)) e)
                    None false /\
             cu_type cu = "SpectralFluxDensity" /\ is_convertable cu = true
        else cu = UnknownUnit (Some un) (YStr s) /\
             is_convertable cu = false
    | None => cu = UnknownUnit None (YStr s) /\ is_convertable cu = false
    end.
Proof.
  intros Hs Hne Hr.
  assert (Hrun : add_component_unit component_id unit e =
                 match classify_plain s e with
                 | Ok cu e0 =>
                     Ok cu (with_components <[component_id := cu]> e0)
                 | Raise ex e0 => Raise ex e0
                 end).
  { unfold add_component_unit. run. rewrite Hs.
    pose proof (truthy_nonempty s Hne) as Ht. simpl in Ht. rewrite Ht.
    simpl. rewrite Hr. reflexivity. }
  rewrite Hrun. unfold classify_plain, SpectralFluxDensity_init.
  destruct (string_to_unit (YStr s) e) as [un|] eqn:Hp.
  - destruct (str_contains "spectral flux density" (physical_type un)).
    + eexists _, _. split; [reflexivity|].
      unfold get_component_unit; simpl. rewrite lookup_insert_eq.
      repeat split.
    + eexists _, _. split; [reflexivity|].
      unfold get_component_unit; simpl. rewrite lookup_insert_eq.
      repeat split.
  - eexists _, _. split; [reflexivity|].
    unfold get_component_unit; simpl. rewrite lookup_insert_eq.
    repeat split.
Qed.

(** X8. Removing a component that was just added to a map that did not
    hold it restores the component map, while the flux registry keeps
    what the classification registered; removing an identifier that is
    not in the map changes nothing. *)
Theorem remove_after_add (component_id : string) (unit : UnitArg Unit)
  (e e1 : Env) (cu : CubeVizUnit Unit) :
  components e !! component_id = None ->
  add_component_unit component_id unit e = Ok cu e1 ->
  remove_component_unit component_id e = Ok tt e /\
  exists e2,
    remove_component_unit component_id e1 = Ok tt e2 /\
    components e2 = components e /\
    get_component_unit component_id e2 = None /\
    FLUX_UNIT_REGISTRY e2 = FLUX_UNIT_REGISTRY e1.
Proof.
  intros Hnone Hrun. split.
  - unfold remove_component_unit, with_components.
    rewrite (delete_id _ _ Hnone). destruct e; reflexivity.
  - pose proof (add_component_unit_state component_id unit e) as Hst.
    rewrite Hrun in Hst. destruct Hst as (e0 & He0 & ->).
    eexists. split; [reflexivity|]. simpl.
    assert (Hc : components e0 = components e)
      by (destruct He0 as [->|(item & ->)]; reflexivity).
    rewrite delete_insert_eq, Hc, (delete_id _ _ Hnone).
    split; [reflexivity|]. split; [|reflexivity].
    unfold get_component_unit; simpl.
    rewrite delete_insert_eq, Hc, (delete_id _ _ Hnone), Hnone. reflexivity.
Qed.

Lemma add_component_unit_keeps (component_id : string) (unit : UnitArg Unit)
  (e e' : Env) (cu : CubeVizUnit Unit) :
  add_component_unit component_id unit e = Ok cu e' ->
  data e' = data e /\
  components e' = <[component_id := cu]> (components e).
Proof.
  intros Hrun. pose proof (add_component_unit_state component_id unit e) as Hst.
  rewrite Hrun in Hst.
  destruct Hst as (e0 & [->|(item & ->)] & ->); split; reflexivity.
Qed.

Lemma add_all_ok (d : list (string * UnitArg Unit)) (e e' : Env) :
  add_all d e = Ok tt e' ->
  data e' = data e /\
  forall id, is_Some (components e' !! id) <->
             is_Some (components e !! id) \/ id ∈ d.*1.
Proof.
  revert e. induction d as [|[comp units] rest IH]; intros e; simpl.
  - intros [= <-]. split; [reflexivity|]. intros id. split; [now left|].
    intros [Hs|Hin]; [exact Hs|inversion Hin].
  - unfold bind.
    destruct (add_component_unit comp units e) as [cu e1|] eqn:Hadd;
      [|discriminate].
    intros Hrest. destruct (IH e1 Hrest) as (Hd & Hdom).
    destruct (add_component_unit_keeps comp units e e1 cu Hadd) as (Hd1 & Hc1).
    split; [congruence|]. intros id. rewrite Hdom, Hc1, elem_of_cons.
    destruct (decide (id = comp)) as [->|Hne].
    + rewrite lookup_insert_eq. split; [intros _; right; now left|].
      intros _. left. eauto.
    + rewrite lookup_insert_ne by congruence. tauto.
Qed.

Lemma add_all_raise (d : list (string * UnitArg Unit)) (e e' : Env)
  (ex : exn) :
  add_all d e = Raise ex e' ->
  data e' = data e /\
  forall id, is_Some (components e' !! id) ->
             is_Some (components e !! id) \/ id ∈ d.*1.
Proof.
  revert e. induction d as [|[comp units] rest IH]; intros e; simpl.
  - discriminate.
  - unfold bind.
    destruct (add_component_unit comp units e) as [cu e1|ex1 e1] eqn:Hadd.
    + intros Hrest. destruct (IH e1 Hrest) as (Hd & Hdom).
      destruct (add_component_unit_keeps comp units e e1 cu Hadd)
        as (Hd1 & Hc1).
      split; [congruence|]. intros id Hid.
      destruct (Hdom id Hid) as [Hs|Hin].
      * rewrite Hc1 in Hs. destruct (decide (id = comp)) as [->|Hne].
        -- right. apply elem_of_cons. now left.
        -- rewrite lookup_insert_ne in Hs by congruence. now left.
      * right. apply elem_of_cons. now right.
    + intros [= <- <-].
      pose proof (add_component_unit_state comp units e) as Hst.
      rewrite Hadd in Hst. subst e1.
      split; [reflexivity|]. intros id Hid. now left.
Qed.

(** X9. After a [set_data] that returns, the component map holds exactly
    the identifiers of the data set's visible components, whatever it held
    before, and the data set is recorded. *)
Theorem set_data_replaces_components (d : list (string * UnitArg Unit))
  (e e' : Env) :
  set_data d e = Ok tt e' ->
  data e' = Some d /\
  forall id, is_Some (components e' !! id) <-> id ∈ d.*1.
Proof.
  unfold set_data. intros Hrun. apply add_all_ok in Hrun as (Hd & Hdom).
  split; [exact Hd|]. intros id. rewrite Hdom. simpl.
  rewrite lookup_empty. split; [|now right].
  intros [Hs|Hin]; [destruct Hs; discriminate|exact Hin].
Qed.

(** X10. A [set_data] that raises (a component with a unit of a wrong
    type, a broken alias record) has already recorded the new data set and
    dropped the previous component map: what the map then holds are
    components of the new data set. *)
Theorem set_data_failure_drops_previous (d : list (string * UnitArg Unit))
  (e e' : Env) (ex : exn) :
  set_data d e = Raise ex e' ->
  data e' = Some d /\
  forall id, is_Some (components e' !! id) -> id ∈ d.*1.
Proof.
  unfold set_data. intros Hrun. apply add_all_raise in Hrun as (Hd & Hdom).
  split; [exact Hd|]. intros id Hid.
  destruct (Hdom id Hid) as [Hs|Hin]; [|exact Hin].
  simpl in Hs. rewrite lookup_empty in Hs. destruct Hs; discriminate.
Qed.

(** X11. A configuration whose first custom unit has a name astropy
    already parses makes the constructor raise [UnboundLocalError], with
    nothing enabled or registered. *)
Theorem constructor_first_name_known (cfg : Config) (key name : string)
  (new_unit : ydict) (rest : list (string * ydict)) (known : Unit)
  (enabled0 : list Unit) (flux0 : FluxUnitRegistry.t Unit)
  (area0 : AreaUnitRegistry.t Unit) :
  cfg_new_units cfg = (key, new_unit) :: rest ->
  new_unit !! "name" = Some (YStr name) ->
  u_Unit enabled0 (YStr name) = Some known ->
  FluxUnitController_init cfg enabled0 flux0 area0
  = Raise UnboundLocalError (mkEnv enabled0 flux0 area0 ∅ None ∅).
Proof.
  intros Hcfg Hname Hknown. unfold FluxUnitController_init.
  rewrite Hcfg. simpl. unfold bind at 1. unfold bind at 1.
  destruct (init_step_existing new_unit name known
              (mkEnv enabled0 flux0 area0 ∅ None ∅) Hname Hknown)
    as (Hstep & _).
  rewrite Hstep. reflexivity.
Qed.
End FluxUnitControllerExtras.

(** ** The wavelength controller *)
Section UnitControllerExtras.
Context {num : Type} `{PyNum num} `{LengthScale num} `{LengthNames}.

(** The setter on a value that differs from the stored one, with
    wavelengths present. *)
Lemma set_redshift_z_changed (self : UnitController) (z : num)
  (orig : list num) :
  _original_wavelengths self = Some orig ->
  py_eq (_redshift_z self) (Some z) = false ->
  exists self',
    set_redshift_z (Some z) self = Ok tt self' /\
    _redshift_z self' = Some z /\
    _wavelengths self' = Some (map (fun x => num_div x (num_add num_one z)) orig) /\
    _new_units self' = _new_units self /\
    trace self' =
      trace self ++
      [SliceSetLabel (if num_ltb num_zero z then REST_WAVELENGTH_TEXT
                      else OBS_WAVELENGTH_TEXT);
       LayoutSetWavelengths
         (WArray (if num_ltb num_zero z
                  then map (num_mul (num_add num_one z)) orig else orig))
         (_new_units self);
       SliceSetWavelengths
         (WArray (map (fun x => num_div x (num_add num_one z)) orig))
         (_new_units self);
       EmitChangeRedshift (Some z)].
Proof.
  intros Horig Hne. unfold set_redshift_z. rewrite Hne. unfold bind.
  destruct (num_ltb num_zero z).
  - unfold rest_arm; simpl. rewrite Horig. unfold recompute; simpl.
    rewrite Horig. eexists. split; [reflexivity|]. simpl.
    repeat split. rewrite <- !app_assoc. reflexivity.
  - unfold obs_arm; simpl. unfold recompute; simpl.
    rewrite Horig. eexists. split; [reflexivity|]. simpl.
    repeat split. rewrite <- !app_assoc. reflexivity.
Qed.

(** X12. Whether it returns or raises, the redshift setter never changes
    the original wavelengths, the original and the selected unit or the
    converted wavelengths, and it only appends to the calls made on the
    collaborators. *)
Theorem set_redshift_z_frame (new_z : option num) (self : UnitController) :
  match set_redshift_z new_z self with
  | Ok _ self' | Raise _ self' =>
      _original_wavelengths self' = _original_wavelengths self /\
      _original_units self' = _original_units self /\
      _new_units self' = _new_units self /\
      _new_wavelengths self' = _new_wavelengths self /\
      exists evs, trace self' = trace self ++ evs
  end.
Proof.
  unfold set_redshift_z.
  destruct (py_eq (_redshift_z self) new_z).
  { repeat split. exists []. rewrite app_nil_r. reflexivity. }
  unfold bind. destruct self as [ow nw ou nu rz lb wl tr].
  destruct new_z as [z|]; [destruct (num_ltb num_zero z)|];
    unfold rest_arm, obs_arm, recompute; simpl;
    destruct ow; simpl;
    repeat (split; [reflexivity|]);
    eexists; rewrite <- ?app_assoc; reflexivity.
Qed.


Lemma set_redshift_z_keeps_original (new_z : option num)
  (self self' : UnitController) :
  set_redshift_z new_z self = Ok tt self' ->
  _original_wavelengths self' = _original_wavelengths self.
Proof.
  unfold set_redshift_z.
  destruct (py_eq (_redshift_z self) new_z); [intros [= <-]; reflexivity|].
  unfold bind. destruct self as [ow nw ou nu rz lb wl tr].
  destruct new_z as [z|]; [destruct (num_ltb num_zero z)|];
    unfold rest_arm, obs_arm, recompute; simpl;
    destruct ow; simpl; try discriminate; intros [= <-]; reflexivity.
Qed.

(** X15. Redshifts do not compound: after any earlier assignment, a new
    assignment stores the original wavelengths divided by one plus the
    new value. *)
Theorem redshift_does_not_compound (self self1 : UnitController)
  (z1 : option num) (z2 : num) (orig : list num) :
  _original_wavelengths self = Some orig ->
  set_redshift_z z1 self = Ok tt self1 ->
  py_eq (_redshift_z self1) (Some z2) = false ->
  exists self2,
    set_redshift_z (Some z2) self1 = Ok tt self2 /\
    _wavelengths self2
    = Some (map (fun x => num_div x (num_add num_one z2)) orig).
Proof.
  intros Horig Hfirst Hne.
  pose proof (set_redshift_z_keeps_original z1 self self1 Hfirst) as Ho.
  rewrite Horig in Ho.
  destruct (set_redshift_z_changed self1 z2 orig Ho Hne)
    as (self2 & Hrun & _ & Hw & _).
  exists self2. split; [exact Hrun|exact Hw].
Qed.

Lemma index_of_None (x : string) (l : list string) :
  x ∉ l -> index_of x l = None.
Proof.
  induction l as [|y l IH]; simpl; intros Hx; [reflexivity|].
  destruct (String.eqb y x) eqn:He.
  - apply String.eqb_eq in He as ->. exfalso. apply Hx, list_elem_of_here.
  - rewrite IH; [reflexivity|]. intros Hin. apply Hx.
    apply list_elem_of_further. exact Hin.
Qed.

Lemma index_of_Some (x : string) (l : list string) (i : nat) :
  index_of x l = Some i -> l !! i = Some x.
Proof.
  revert i. induction l as [|y l IH]; simpl; intros i; [discriminate|].
  destruct (String.eqb y x) eqn:He.
  - intros [= <-]. apply String.eqb_eq in He as ->. reflexivity.
  - destruct (index_of x l) as [j|]; simpl; [|discriminate].
    intros [= <-]. simpl. apply IH. reflexivity.
Qed.

Lemma index_of_elem (x : string) (l : list string) :
  x ∈ l -> exists i, index_of x l = Some i.
Proof.
  induction l as [|y l IH]; intros Hx; [inversion Hx|]. simpl.
  destruct (String.eqb y x) eqn:He; [eauto|].
  apply elem_of_cons in Hx as [->|Hx].
  - rewrite String.eqb_refl in He. discriminate.
  - destruct (IH Hx) as (i & ->). simpl. eauto.
Qed.

(** X16. A label that is not the title of one of the six units (the
    titles are what astropy's long names give) makes [on_combobox_change]
    raise [ValueError] and leaves the controller as it was. *)
Theorem on_combobox_change_unknown_label (name : string)
  (self : UnitController) :
  name ∉ _units_titles ->
  on_combobox_change name self = Raise ValueError self.
Proof.
  intros Hname. unfold on_combobox_change.
  rewrite (index_of_None _ _ Hname). reflexivity.
Qed.

(** X17. For a label that is the title of one of the six units and
    present wavelengths, [on_combobox_change] returns: it selects one of
    the six units, stores the original wavelengths converted from the
    original unit to it, and hands exactly these to the layout; the
    original wavelengths, the redshift and the redshifted wavelengths are
    untouched. *)
Theorem on_combobox_change_known_label (name : string)
  (self : UnitController) (ws : list num) :
  name ∈ _units_titles ->
  _original_wavelengths self = Some ws ->
  exists un self',
    on_combobox_change name self = Ok tt self' /\
    un ∈ _units /\
    _new_units self' = un /\
    _new_wavelengths self'
    = WArray (map (to_unit (_original_units self) un) ws) /\
    trace self' =
      trace self ++
      [LayoutSetWavelengths
         (WArray (map (to_unit (_original_units self) un) ws)) un] /\
    _original_wavelengths self' = Some ws /\
    _original_units self' = _original_units self /\
    _redshift_z self' = _redshift_z self /\
    _wavelengths self' = _wavelengths self.
Proof.
  intros Hname Hws.
  destruct (index_of_elem name _units_titles Hname) as (i & Hi).
  assert (Hun : exists un, _units !! i = Some un).
  { pose proof (index_of_Some _ _ _ Hi) as Hlook.
    apply lookup_lt_Some in Hlook.
    unfold _units_titles in Hlook. rewrite length_map in Hlook.
    destruct (lookup_lt_is_Some_2 _units i Hlook) as (un & Hun). eauto. }
  destruct Hun as (un & Hun).
  unfold on_combobox_change. rewrite Hi, Hun, Hws. simpl.
  exists un. eexists. split; [reflexivity|]. simpl.
  split; [apply (list_elem_of_lookup_2 _ i); exact Hun|].
  repeat split; assumption.
Qed.

Lemma on_combobox_change_keeps (name : string)
  (self self' : UnitController) :
  on_combobox_change name self = Ok tt self' ->
  _original_wavelengths self' = _original_wavelengths self /\
  _original_units self' = _original_units self /\
  _redshift_z self' = _redshift_z self.
Proof.
  unfold on_combobox_change.
  destruct (index_of name _units_titles) as [i|]; [|discriminate].
  destruct (_units !! i) as [un|]; [|discriminate]. simpl.
  destruct (convert_wavelengths _ _ un); intros [= <-]; repeat split.
Qed.

(** X18. Unit selections do not compound: the wavelengths and the unit
    that a selection stores are the same whether or not another selection
    was made before. *)
Theorem combobox_does_not_compound (name1 name2 : string)
  (self self1 self2 self2' : UnitController) :
  on_combobox_change name1 self = Ok tt self1 ->
  on_combobox_change name2 self1 = Ok tt self2 ->
  on_combobox_change name2 self = Ok tt self2' ->
  _new_wavelengths self2 = _new_wavelengths self2' /\
  _new_units self2 = _new_units self2'.
Proof.
  intros Hs1 Hs2 Hs3.
  destruct (on_combobox_change_keeps name1 self self1 Hs1) as (Hw & Hu & _).
  unfold on_combobox_change in Hs2, Hs3. rewrite Hw, Hu in Hs2.
  destruct (index_of name2 _units_titles) as [i2|]; [|discriminate].
  destruct (_units !! i2) as [un2|]; [|discriminate].
  simpl in Hs2, Hs3.
  destruct (convert_wavelengths _ _ un2);
    injection Hs2 as <-; injection Hs3 as <-; split; reflexivity.
Qed.

(** X19. The redshift setter ignores the unit selection: after a unit was
    selected, assigning a redshift pushes to the slice controller the
    original values divided by one plus the redshift, not converted, and
    tagged with the selected unit. *)
Theorem redshift_after_selection (name : string)
  (self self1 : UnitController) (z : num) (orig : list num) :
  _original_wavelengths self = Some orig ->
  on_combobox_change name self = Ok tt self1 ->
  py_eq (_redshift_z self) (Some z) = false ->
  exists self2 pushed,
    set_redshift_z (Some z) self1 = Ok tt self2 /\
    trace self2 =
      trace self1 ++
      [SliceSetLabel (if num_ltb num_zero z then REST_WAVELENGTH_TEXT
                      else OBS_WAVELENGTH_TEXT);
       LayoutSetWavelengths (WArray pushed) (_new_units self1);
       SliceSetWavelengths
         (WArray (map (fun x => num_div x (num_add num_one z)) orig))
         (_new_units self1);
       EmitChangeRedshift (Some z)].
Proof.
  intros Horig Hsel Hne.
  destruct (on_combobox_change_keeps name self self1 Hsel) as (Ho & _ & Hz).
  rewrite Horig in Ho. rewrite <- Hz in Hne.
  destruct (set_redshift_z_changed self1 z orig Ho Hne)
    as (self2 & Hset & _ & _ & _ & Htr).
  exists self2. eexists. split; [exact Hset|exact Htr].
Qed.
End UnitControllerExtras.

(** ** Unit rows of the dialog *)
Section PopulateExtras.
Context {Unit : Type} `{Astropy Unit}.
Variable str_of_float : float -> string.

Lemma str_in_spec (s : string) (l : list string) :
  str_in s l = true <-> s ∈ l.
Proof.
  unfold str_in. rewrite existsb_exists. split.
  - intros (x & Hx & He). apply String.eqb_eq in He as ->.
    now apply list_elem_of_In.
  - intros Hs. exists s. split; [now apply list_elem_of_In|].
    apply String.eqb_refl.
Qed.

(** X21. For a [SpectralFluxDensity] that has a flux sub-unit, the row is
    built without an exception: a line edit, the label " X ", a combo box,
    an area part when there is an area, and a stretch.  The combo box
    offers every string of the flux registry's listing (and nothing else
    but the sub-unit's string), and its current index is the position of
    the sub-unit's string. *)
Theorem flux_populate_selects_subunit (self_unit : option Unit)
  (numeric : option float) (q : Unit) (area : option Unit)
  (flux : FluxUnitRegistry.t Unit) (area_reg : AreaUnitRegistry.t Unit)
  (unit_layout : list Widget) :
  exists arg options index,
    flux_populate str_of_float self_unit numeric (Some q) area flux area_reg
      unit_layout
    = Ok tt
        (unit_layout ++
         [QLineEdit arg 50; QLabel " X "; QComboBox options (Some index)] ++
         match area with
         | Some _ =>
             [QLabel " / ";
              QComboBox (AreaUnitRegistry.get_unit_list area_reg false false)
                None]
         | None => []
         end ++ [Stretch 1]) /\
    options !! index = Some (to_string q) /\
    (forall s, s ∈ options <->
               s ∈ FluxUnitRegistry.get_unit_list flux \/ s = to_string q).
Proof.
  unfold flux_populate.
  set (listing := FluxUnitRegistry.get_unit_list flux).
  set (options := if negb (str_in (to_string q) listing)
                  then listing ++ [to_string q] else listing).
  assert (Hopts : forall s, s ∈ options <-> s ∈ listing \/ s = to_string q).
  { intros s. unfold options.
    destruct (str_in (to_string q) listing) eqn:Hin; simpl.
    - apply str_in_spec in Hin. split; [now left|].
      intros [Hs| ->]; assumption.
    - rewrite elem_of_app, list_elem_of_singleton. reflexivity. }
  destruct (index_of_elem (to_string q) options) as (i & Hi).
  { apply Hopts. now right. }
  rewrite Hi. eexists _, options, i. split.
  - destruct area; rewrite <- ?app_assoc; simpl; reflexivity.
  - split; [apply index_of_Some; exact Hi|exact Hopts].
Qed.

(** X22. A convertible component without a flux sub-unit (an alias whose
    flux field astropy does not parse gives one) makes
    [populate_unit_layout] raise [AttributeError], after the line edit and
    the label " X " were added to the layout. *)
Theorem populate_without_subunit_raises (c : CubeVizUnit Unit)
  (flux : FluxUnitRegistry.t Unit) (area_reg : AreaUnitRegistry.t Unit)
  (unit_layout : list Widget) :
  is_convertable c = true ->
  cu_spectral_flux_density c = None ->
  exists arg,
    populate_unit_layout str_of_float c flux area_reg unit_layout
    = Raise AttributeError (unit_layout ++ [QLineEdit arg 50; QLabel " X "]).
Proof.
  intros Hconv Hsfd. destruct c as [|un us|un us n sfd ar fmt];
    try discriminate.
  simpl in Hsfd. subst sfd. simpl. unfold flux_populate.
  eexists. rewrite <- app_assoc. reflexivity.
Qed.

(** X23. A component that is not convertible gets a row of one label and
    no exception; for a component without a unit string the label does
    not mention a unit. *)
Theorem populate_not_convertable (c : CubeVizUnit Unit)
  (flux : FluxUnitRegistry.t Unit) (area_reg : AreaUnitRegistry.t Unit)
  (unit_layout : list Widget) :
  is_convertable c = false ->
  exists text,
    populate_unit_layout str_of_float c flux area_reg unit_layout
    = Ok tt (unit_layout ++ [QLabel text]) /\
    (truthy (cu_unit_string c) = false ->
     text = "No Units." \/ text = "Unit not found.").
Proof.
  intros Hconv. destruct c as [|un us|un us n sfd ar fmt]; try discriminate.
  - eexists. split; [reflexivity|]. intros _. now left.
  - simpl. unfold default_populate. eexists. split; [reflexivity|].
    simpl. intros ->. now right.
Qed.
End PopulateExtras.

(** ** The further properties on the sample configuration *)

Lemma add_unit_idempotent_witness :
  (forall un : string, ItemUnit "Jy" = ItemUnit un -> unit_eq un un = true) /\
  FluxUnitRegistry.add_unit (ItemUnit "Jy")
    (FluxUnitRegistry.add_unit (ItemUnit "Jy") FluxUnitRegistry.init)
  = FluxUnitRegistry.add_unit (ItemUnit "Jy") FluxUnitRegistry.init.
Proof.
  assert (Hrefl : forall un : string,
             ItemUnit "Jy" = ItemUnit un -> unit_eq un un = true)
    by (intros un [= <-]; reflexivity).
  split; [exact Hrefl|].
  apply (add_unit_idempotent (ItemUnit "Jy") FluxUnitRegistry.init
           AreaUnitRegistry.init Hrefl).
Defined.

Lemma listings_only_grow_witness :
  "Jy" ∈ FluxUnitRegistry.get_unit_list (Unit := string)
           (FluxUnitRegistry.init, AreaUnitRegistry.init (Unit := string)).1 /\
  "Jy" ∈ FluxUnitRegistry.get_unit_list
           (run_calls [CallAddUnit (ItemStr "counts")]
              (FluxUnitRegistry.init, AreaUnitRegistry.init)).1.
Proof.
  assert (Hin : "Jy" ∈ FluxUnitRegistry.get_unit_list (Unit := string)
                  (FluxUnitRegistry.init,
                   AreaUnitRegistry.init (Unit := string)).1)
    by compute_done.
  split; [exact Hin|].
  exact (proj1 (listings_only_grow [CallAddUnit (ItemStr "counts")]
                  (FluxUnitRegistry.init, AreaUnitRegistry.init)
                  false false "Jy") Hin).
Defined.

Lemma add_unit_listed_or_shadowed_witness :
  unit_strings [ItemStr (Unit := string) "counts"] = ["counts"] /\
  ("counts" ∈ FluxUnitRegistry.get_unit_list
                (FluxUnitRegistry.add_unit (ItemStr "counts")
                   FluxUnitRegistry.init) \/
   exists x : Item string,
     x ∈ FluxUnitRegistry.runtime_defined_units FluxUnitRegistry.init /\
     item_eq x (ItemStr "counts") = true /\ unit_strings [x] <> ["counts"]).
Proof.
  split; [reflexivity|].
  apply (add_unit_listed_or_shadowed (ItemStr "counts") "counts"
           FluxUnitRegistry.init).
  reflexivity.
Defined.

Lemma add_component_unit_raise_keeps_state_witness :
  add_component_unit "flux" ArgOther Sample.env0
  = Raise ValueError Sample.env0 /\
  Sample.env0 = Sample.env0.
Proof.
  split; [reflexivity|].
  apply (add_component_unit_raise_keeps_state "flux" ArgOther Sample.env0
           Sample.env0 ValueError).
  reflexivity.
Defined.

Lemma add_component_unit_frame_witness :
  exists cu e',
    add_component_unit "flux" (ArgStr "Jy") Sample.env0 = Ok cu e' /\
    registered_units e' = registered_units Sample.env0 /\
    AREA_UNIT_REGISTRY e' = AREA_UNIT_REGISTRY Sample.env0.
Proof.
  destruct (add_component_unit "flux" (ArgStr "Jy") Sample.env0)
    as [cu e'|ex e'] eqn:Hrun; [|vm_compute in Hrun; discriminate].
  exists cu, e'. split; [reflexivity|].
  destruct (add_component_unit_frame "flux" (ArgStr "Jy") Sample.env0 e' cu
              Hrun) as (_ & _ & Hr & _ & Ha & _).
  split; [exact Hr|exact Ha].
Defined.

Lemma add_component_unit_plain_witness :
  unit_to_string (ArgStr "Jy") = inr "Jy" /\
  registered_units Sample.env0 !! "Jy" = None /\
  exists cu e',
    add_component_unit "flux" (ArgStr "Jy") Sample.env0 = Ok cu e' /\
    get_component_unit "flux" e' = Some "Jy".
Proof.
  assert (Hk : registered_units Sample.env0 !! "Jy" = None)
    by (vm_compute; reflexivity).
  split; [reflexivity|]. split; [exact Hk|].
  destruct (add_component_unit_plain "flux" (ArgStr "Jy") "Jy" Sample.env0)
    as (cu & e' & Hrun & Hget & _); [reflexivity|discriminate|exact Hk|].
  exists cu, e'. split; [exact Hrun|]. rewrite Hget. vm_compute. reflexivity.
Defined.

Lemma remove_after_add_witness :
  components Sample.env0 !! "flux" = None /\
  exists cu e1 e2,
    add_component_unit "flux" (ArgStr "Jy") Sample.env0 = Ok cu e1 /\
    remove_component_unit "flux" e1 = Ok tt e2 /\
    components e2 = components Sample.env0.
Proof.
  assert (Hnone : components Sample.env0 !! "flux" = None) by reflexivity.
  split; [exact Hnone|].
  destruct (add_component_unit "flux" (ArgStr "Jy") Sample.env0)
    as [cu e1|ex e1] eqn:Hrun; [|vm_compute in Hrun; discriminate].
  destruct (remove_after_add "flux" (ArgStr "Jy") Sample.env0 e1 cu
              Hnone Hrun) as (_ & e2 & Hrem & Hc & _).
  exists cu, e1, e2. split; [reflexivity|]. split; [exact Hrem|exact Hc].
Defined.

Lemma set_data_replaces_components_witness :
  exists e',
    set_data [("flux", ArgStr "Jy"); ("mask", ArgStr "")] Sample.env0
    = Ok tt e' /\
    data e' = Some [("flux", ArgStr "Jy"); ("mask", ArgStr "")].
Proof.
  destruct (set_data [("flux", ArgStr "Jy"); ("mask", ArgStr "")]
              Sample.env0) as [[] e'|ex e'] eqn:Hrun;
    [|vm_compute in Hrun; discriminate].
  exists e'. split; [reflexivity|].
  apply (set_data_replaces_components _ Sample.env0 e' Hrun).
Defined.

Lemma set_data_failure_drops_previous_witness :
  exists e',
    set_data [("flux", ArgStr "Jy"); ("error", ArgOther)] Sample.env0
    = Raise ValueError e' /\
    data e' = Some [("flux", ArgStr "Jy"); ("error", ArgOther)].
Proof.
  destruct (set_data [("flux", ArgStr "Jy"); ("error", ArgOther)]
              Sample.env0) as [[] e'|ex e'] eqn:Hrun;
    [vm_compute in Hrun; discriminate|].
  assert (Hex : ex = ValueError)
    by (vm_compute in Hrun; injection Hrun as <- _; reflexivity).
  subst ex. exists e'. split; [reflexivity|].
  apply (set_data_failure_drops_previous _ Sample.env0 e' ValueError Hrun).
Defined.

Lemma constructor_first_name_known_witness :
  cfg_new_units Sample.cfg_existing = [("jansky", {[ "name" := YStr "Jy" ]})] /\
  FluxUnitController_init Sample.cfg_existing []
    FluxUnitRegistry.init AreaUnitRegistry.init
  = Raise UnboundLocalError
      (mkEnv [] FluxUnitRegistry.init AreaUnitRegistry.init ∅ None ∅).
Proof.
  split; [reflexivity|].
  apply (constructor_first_name_known Sample.cfg_existing "jansky" "Jy"
           {[ "name" := YStr "Jy" ]} [] "Jy").
  - reflexivity.
  - vm_compute; reflexivity.
  - vm_compute; reflexivity.
Defined.


Lemma redshift_does_not_compound_witness :
  exists self1 self2,
    set_redshift_z (Some 1%float)
      (UnitController_init (Some [1; 2; 3]%float) "Wavelength") = Ok tt self1 /\
    set_redshift_z (Some 3%float) self1 = Ok tt self2 /\
    _wavelengths self2 = Some [0.25; 0.5; 0.75]%float.
Proof.
  destruct (set_redshift_z (Some 1%float)
              (UnitController_init (Some [1; 2; 3]%float) "Wavelength"))
    as [[] self1|ex self1] eqn:Hfirst; [|vm_compute in Hfirst; discriminate].
  assert (Hz : py_eq (_redshift_z self1) (Some 3%float) = false)
    by (vm_compute in Hfirst; injection Hfirst as <-; reflexivity).
  destruct (redshift_does_not_compound
              (UnitController_init (Some [1; 2; 3]%float) "Wavelength")
              self1 (Some 1%float) 3%float [1; 2; 3]%float
              eq_refl Hfirst Hz) as (self2 & Hrun & Hw).
  exists self1, self2. split; [reflexivity|]. split; [exact Hrun|exact Hw].
Defined.

Lemma on_combobox_change_unknown_label_witness :
  ("Parsec" ∉ _units_titles) /\
  on_combobox_change (num := float) "Parsec"
    (UnitController_init (Some [1000%float]) "Wavelength")
  = Raise ValueError (UnitController_init (Some [1000%float]) "Wavelength").
Proof.
  assert (Hout : "Parsec" ∉ _units_titles) by compute_done.
  split; [exact Hout|].
  apply (on_combobox_change_unknown_label "Parsec" _ Hout).
Defined.

Lemma on_combobox_change_known_label_witness :
  "Nanometer" ∈ _units_titles /\
  exists un self',
    on_combobox_change (num := float) "Nanometer"
      (UnitController_init (Some [1%float]) "Wavelength") = Ok tt self' /\
    _new_units self' = un /\ un ∈ _units.
Proof.
  assert (Hin : "Nanometer" ∈ _units_titles) by compute_done.
  split; [exact Hin|].
  destruct (on_combobox_change_known_label (num := float) "Nanometer"
              (UnitController_init (Some [1%float]) "Wavelength") [1%float]
              Hin eq_refl) as (un & self' & Hrun & Hu & Hn & _).
  exists un, self'. split; [exact Hrun|]. split; [exact Hn|exact Hu].
Defined.

Lemma combobox_does_not_compound_witness :
  exists self1 self2 self2',
    on_combobox_change (num := float) "Nanometer"
      (UnitController_init (Some [1%float]) "Wavelength") = Ok tt self1 /\
    on_combobox_change "Centimeter" self1 = Ok tt self2 /\
    on_combobox_change "Centimeter"
      (UnitController_init (Some [1%float]) "Wavelength") = Ok tt self2' /\
    _new_wavelengths self2 = _new_wavelengths self2'.
Proof.
  destruct (on_combobox_change (num := float) "Nanometer"
              (UnitController_init (Some [1%float]) "Wavelength"))
    as [[] self1|ex self1] eqn:Hs1; [|vm_compute in Hs1; discriminate].
  destruct (on_combobox_change "Centimeter" self1)
    as [[] self2|ex self2] eqn:Hs2;
    [|vm_compute in Hs1; injection Hs1 as <-; vm_compute in Hs2;
      discriminate].
  destruct (on_combobox_change (num := float) "Centimeter"
              (UnitController_init (Some [1%float]) "Wavelength"))
    as [[] self2'|ex self2'] eqn:Hs3; [|vm_compute in Hs3; discriminate].
  exists self1, self2, self2'.
  split; [reflexivity|]. split; [exact Hs2|]. split; [reflexivity|].
  apply (combobox_does_not_compound "Nanometer" "Centimeter" _ _ _ _
           Hs1 Hs2 Hs3).
Defined.

Lemma redshift_after_selection_witness :
  exists self1 self2,
    on_combobox_change (num := float) "Nanometer"
      (UnitController_init (Some [1%float]) "Wavelength") = Ok tt self1 /\
    set_redshift_z (Some 1%float) self1 = Ok tt self2 /\
    _new_units self1 = Lnm.
Proof.
  destruct (on_combobox_change (num := float) "Nanometer"
              (UnitController_init (Some [1%float]) "Wavelength"))
    as [[] self1|ex self1] eqn:Hs1; [|vm_compute in Hs1; discriminate].
  destruct (redshift_after_selection (num := float) "Nanometer"
              (UnitController_init (Some [1%float]) "Wavelength") self1
              1%float [1%float])
    as (self2 & pushed & Hset & _); [reflexivity|exact Hs1|reflexivity|].
  exists self1, self2. split; [reflexivity|]. split; [exact Hset|].
  vm_compute in Hs1. injection Hs1 as <-. reflexivity.
Defined.

Lemma populate_without_subunit_raises_witness :
  exists cu e' arg,
    add_component_unit "flux" (ArgStr "counts per pixel") Sample.env0
    = Ok cu e' /\
    populate_unit_layout (fun _ => "1.0") cu (FLUX_UNIT_REGISTRY e')
      (AREA_UNIT_REGISTRY e') []
    = Raise AttributeError [QLineEdit arg 50; QLabel " X "].
Proof.
  destruct (add_component_unit "flux" (ArgStr "counts per pixel") Sample.env0)
    as [cu e'|ex e'] eqn:Hrun; [|vm_compute in Hrun; discriminate].
  assert (Hcu : is_convertable cu = true /\ cu_spectral_flux_density cu = None)
    by (vm_compute in Hrun; injection Hrun as <- _; split; reflexivity).
  destruct (populate_without_subunit_raises (fun _ => "1.0") cu
              (FLUX_UNIT_REGISTRY e') (AREA_UNIT_REGISTRY e') []
              (proj1 Hcu) (proj2 Hcu)) as (arg & Hpop).
  exists cu, e', arg. split; [reflexivity|exact Hpop].
Defined.

Lemma populate_not_convertable_witness :
  is_convertable (NoneUnit (Unit := string)) = false /\
  exists text,
    populate_unit_layout (fun _ => "1.0") (NoneUnit (Unit := string))
      FluxUnitRegistry.init AreaUnitRegistry.init []
    = Ok tt [QLabel text].
Proof.
  split; [reflexivity|].
  destruct (populate_not_convertable (fun _ => "1.0")
              (NoneUnit (Unit := string)) FluxUnitRegistry.init
              AreaUnitRegistry.init [] eq_refl) as (text & Hpop & _).
  exists text. exact Hpop.
Defined.
